(** * production_calendar: the fetch / extract / cache pipeline

    A shallow embedding of [src/production_calendar.py].  The class
    [ProcessCalendar] keeps one dictionary [_dict] (year -> month -> day
    lists), reads calendar pages over HTTP, cuts the month tables out of
    them with four regular expressions, and mirrors [_dict] in a JSON file.

    Layout of the development:
    - [Py]    : the two builtins the code leans on, [str] and [int] on
                integers;
    - [Re]    : [findall] for the four patterns compiled in [__init__];
    - [Utf8]  : [bytes.decode('utf-8')];
    - the data model, the state of one instance and of its surroundings
      (cache file, network, standard output), and a state-and-exception
      monad in which the methods are written statement by statement;
    - [Json]  : [json.load], [json.dump] and the key conversions;
    - the methods of [ProcessCalendar];
    - [Exact] : the inputs on which the builtins do what their models do;
    - facts about the builtins ([PyFacts], [JsonFacts], [ReFacts]), the
      methods as functions of the state, and the properties C1 to C10,
      each followed up on the data of [Sample]. *)

From Stdlib Require Import ZArith String Ascii DecimalString DecimalN DecimalZ DecimalPos.
From Stdlib.Strings Require Import Byte.
From stdpp Require Import gmap strings list fin_maps.

Local Open Scope Z_scope.
Local Open Scope string_scope.

(** ** Python builtins on integers *)

Module Py.

(** [str(z)] for an [int]: decimal digits, a leading minus sign for
    negative numbers, no leading zeros.  CPython raises [ValueError] instead
    for an integer of more than 4300 digits; that is not modelled here, and
    [Exact.printable] below names the integers on which this is [str]. *)
Definition str (z : Z) : string := NilZero.string_of_int (Z.to_int z).

Definition is_digit (c : ascii) : bool :=
  let n := N_of_ascii c in ((48 <=? n) && (n <=? 57))%N.

(** The ASCII blanks that [int] skips at both ends of its argument: the
    space and the controls from tab to carriage return. *)
Definition is_space (c : ascii) : bool :=
  let n := N_of_ascii c in ((n =? 32) || ((9 <=? n) && (n <=? 13)))%N.

Fixpoint lstrip (s : string) : string :=
  match s with
  | String c r => if is_space c then lstrip r else s
  | EmptyString => EmptyString
  end.

Fixpoint rstrip (s : string) : string :=
  match s with
  | String c r =>
      match rstrip r with
      | EmptyString => if is_space c then EmptyString else String c EmptyString
      | r' => String c r'
      end
  | EmptyString => EmptyString
  end.

Definition strip (s : string) : string := rstrip (lstrip s).

(** The digit part of an integer literal: digits, with single underscores
    allowed between two digits.  Returns the digits without the
    underscores, [None] when the text is not of that form. *)
Fixpoint digits (after_digit : bool) (s : string) : option string :=
  match s with
  | EmptyString => if after_digit then Some EmptyString else None
  | String c r =>
      if is_digit c then String c <$> digits true r
      else if Ascii.eqb c "_" then
        if after_digit then digits false r else None
      else None
  end.

Definition unsigned (s : string) : option Z :=
  ds ← digits false s;
  d ← NilEmpty.uint_of_string ds;
  Some (Z.of_uint d).

(** [int(s)] for a [str] in base 10: [None] stands for [ValueError].
    Covered: surrounding blanks, an optional sign, ASCII digits with
    underscores.  Digits and blanks outside ASCII are not modelled, nor is
    the [ValueError] of CPython for more than 4300 digits: on an ASCII
    text within [Exact.within_limit] this is [int]. *)
Definition int (s : string) : option Z :=
  match strip s with
  | String c r =>
      if Ascii.eqb c "-" then Z.opp <$> unsigned r
      else if Ascii.eqb c "+" then unsigned r
      else unsigned (String c r)
  | EmptyString => None
  end.

(** Texts made of ASCII digits only. *)
Fixpoint all_digits (s : string) : bool :=
  match s with
  | String c r => is_digit c && all_digits r
  | EmptyString => true
  end.

End Py.

(** ** Regular expressions

    [re.Pattern.findall] for the four patterns of [__init__].  Each pattern
    starts with a literal and has one group, so [findall] returns the list
    of the texts captured by that group, scanning from left to right and
    resuming after the end of each match.  A non-greedy [.*?] followed by a
    literal stops at the first occurrence of the literal; without
    [re.DOTALL] the dot refuses the newline, and the attempt fails there.
    The text is held in its UTF-8 encoding, in which an ASCII literal
    occurs exactly where it occurs in the decoded text.  [\d] is taken as
    the ASCII digits; [Exact.ascii_after_digits] below names the texts on
    which the pre-holiday pattern meets no other decimal digit. *)

Module Re.

Definition quote : string := String "034"%char EmptyString.
Definition newline : ascii := "010"%char.

Fixpoint skip (n : nat) (s : string) : string :=
  match n, s with
  | S k, String _ r => skip k r
  | _, _ => s
  end.

(** Match the literal [lit] at the head of [s]: what follows it. *)
Definition literal (lit s : string) : option string :=
  if String.prefix lit s then Some (skip (String.length lit) s) else None.

(** [.*?] followed by the literal [stop], at the head of [s]: the text taken
    by the dot and the number of characters consumed, [stop] included. *)
Fixpoint lazy_until (dotall : bool) (stop s : string) : option (string * nat) :=
  if String.prefix stop s then Some (EmptyString, String.length stop)
  else
    match s with
    | EmptyString => None
    | String c r =>
        if negb dotall && Ascii.eqb c newline then None
        else '(taken, n) ← lazy_until dotall stop r; Some (String c taken, S n)
    end.

(** [\d+], greedy: the longest run of digits at the head of [s]. *)
Fixpoint digit_run (s : string) : string :=
  match s with
  | String c r => if Py.is_digit c then String c (digit_run r) else EmptyString
  | EmptyString => EmptyString
  end.

(** A pattern, as the function that tries it at the head of a text and
    gives the captured group and the length of the match. *)
Definition pattern := string → option (string * nat).

(** [<table class="cal">(.*?)</table>] with [re.DOTALL]. *)
Definition _table_pattern : pattern := λ s,
  let opening := "<table class=" ++ quote ++ "cal" ++ quote ++ ">" in
  r ← literal opening s;
  '(group, n) ← lazy_until true "</table>" r;
  Some (group, (String.length opening + n)%nat).

(** [<td class="preholiday">(\d+)<]. *)
Definition _pre_holiday_pattern : pattern := λ s,
  let opening := "<td class=" ++ quote ++ "preholiday" ++ quote ++ ">" in
  r ← literal opening s;
  let group := digit_run r in
  match group with
  | EmptyString => None
  | _ =>
      _ ← literal "<" (skip (String.length group) r);
      Some (group, (String.length opening + String.length group + 1)%nat)
  end.

(** [<td class="weekend">(.*?)</td>]. *)
Definition _weekend_pattern : pattern := λ s,
  let opening := "<td class=" ++ quote ++ "weekend" ++ quote ++ ">" in
  r ← literal opening s;
  '(group, n) ← lazy_until false "</td>" r;
  Some (group, (String.length opening + n)%nat).

(** [<td class="holiday.*?">(.*?)</td>]: the first [.*?] is not a group. *)
Definition _holiday_pattern : pattern := λ s,
  let opening := "<td class=" ++ quote ++ "holiday" in
  r ← literal opening s;
  '(_, n1) ← lazy_until false (quote ++ ">") r;
  '(group, n2) ← lazy_until false "</td>" (skip n1 r);
  Some (group, (String.length opening + n1 + n2)%nat).

(** [findall]: try the pattern at every position from the left; after a
    match, the next [pending] characters belong to it and are passed over. *)
Fixpoint scan (p : pattern) (pending : nat) (s : string) : list string :=
  match pending with
  | S k =>
      match s with
      | String _ r => scan p k r
      | EmptyString => []
      end
  | O =>
      match p s with
      | Some (group, n) =>
          group :: match s with
                   | String _ r => scan p (Nat.pred n) r
                   | EmptyString => []
                   end
      | None =>
          match s with
          | String _ r => scan p 0 r
          | EmptyString => []
          end
      end
  end.

Definition findall (p : pattern) (s : string) : list string := scan p 0 s.

End Re.

(** ** Decoding the response body *)

Module Utf8.

(** What the decoder expects next: the start of a character, or a
    continuation byte within [lo..hi] followed by [more] further ones. *)
Inductive expect :=
| Start
| Cont (more : nat) (lo hi : N).

Definition between (lo hi b : N) : bool := ((lo <=? b) && (b <=? hi))%N.

(** Well-formed UTF-8 (no overlong forms, no surrogates, at most U+10FFFF),
    which is what the strict decoder accepts. *)
Fixpoint well_formed (e : expect) (bs : list N) : bool :=
  match bs with
  | [] => match e with Start => true | Cont _ _ _ => false end
  | b :: r =>
      match e with
      | Start =>
          if (b <=? 127)%N then well_formed Start r
          else if between 194 223 b then well_formed (Cont 0 128 191) r
          else if (b =? 224)%N then well_formed (Cont 1 160 191) r
          else if between 225 236 b then well_formed (Cont 1 128 191) r
          else if (b =? 237)%N then well_formed (Cont 1 128 159) r
          else if between 238 239 b then well_formed (Cont 1 128 191) r
          else if (b =? 240)%N then well_formed (Cont 2 144 191) r
          else if between 241 243 b then well_formed (Cont 2 128 191) r
          else if (b =? 244)%N then well_formed (Cont 2 128 143) r
          else false
      | Cont more lo hi =>
          if between lo hi b then
            match more with
            | O => well_formed Start r
            | S k => well_formed (Cont k 128 191) r
            end
          else false
      end
  end.

(** [bytes.decode('utf-8')]: [None] stands for [UnicodeDecodeError].  The
    decoded text is represented by its encoding. *)
Definition decode (b : list byte) : option string :=
  if well_formed Start (Byte.to_N <$> b) then Some (string_of_list_byte b)
  else None.

End Utf8.

(** ** Data model *)

Module Date.
(** The fields of a [datetime.datetime] that the code reads. *)
Record datetime := { year : Z; month : Z; day : Z }.
End Date.

(** [DateInfo.__init__]: the date and four flags, all [False] at first. *)
Record DateInfo := {
  datetime : Date.datetime;
  is_work : bool;
  is_short : bool;
  is_holiday : bool;
  is_weekend : bool
}.

Definition DateInfo__init__ (dt : Date.datetime) : DateInfo :=
  {| datetime := dt; is_work := false; is_short := false;
     is_holiday := false; is_weekend := false |}.

Definition set_is_work (b : bool) (d : DateInfo) : DateInfo :=
  {| datetime := datetime d; is_work := b; is_short := is_short d;
     is_holiday := is_holiday d; is_weekend := is_weekend d |}.
Definition set_is_short (b : bool) (d : DateInfo) : DateInfo :=
  {| datetime := datetime d; is_work := is_work d; is_short := b;
     is_holiday := is_holiday d; is_weekend := is_weekend d |}.
Definition set_is_holiday (b : bool) (d : DateInfo) : DateInfo :=
  {| datetime := datetime d; is_work := is_work d; is_short := is_short d;
     is_holiday := b; is_weekend := is_weekend d |}.
Definition set_is_weekend (b : bool) (d : DateInfo) : DateInfo :=
  {| datetime := datetime d; is_work := is_work d; is_short := is_short d;
     is_holiday := is_holiday d; is_weekend := b |}.

(** The value stored for one month: the dictionary with the keys
    ['pre_holidays'], ['weekends'] and ['holidays'].  Freshly extracted day
    sequences are tuples and those read back from the cache are lists; the
    code only asks [in] of them and serialises them, which reads the same on
    both, so both are lists here. *)
Record MonthData := {
  pre_holidays : list Z;
  weekends : list Z;
  holidays : list Z
}.

Global Instance MonthData_eq_dec : EqDecision MonthData.
Proof. solve_decision. Defined.

(** One year in memory, [self._dict[year]]: month number to month value. *)
Abbreviation YearData := (gmap Z MonthData).

(** The JSON document of the cache file: an object from year to an object
    from month to the month value.  JSON object keys are text.  An object
    is a finite map: the order of its members in the file, which
    [sort_keys=True] fixes on writing, is not kept. *)
Abbreviation JsonYear := (gmap string MonthData).
Abbreviation JsonDoc := (gmap string (gmap string MonthData)).

(** What the cache file can hold.  Documents of another shape than the one
    the class writes (a top-level array, a month without one of its three
    keys) are not considered, nor are failures of the file system itself. *)
Inductive contents :=
| ZeroLength                (* a file without a single byte *)
| Malformed                 (* other text that is no JSON document *)
| Json (doc : JsonDoc).     (* the text of the JSON document [doc] *)

Inductive exn :=
| KeyError (key : Z)
| ValueError (text : string)
| JSONDecodeError
| UnicodeDecodeError
| FileNotFoundError
| URLError (reason : string)         (* raised by [request.urlopen] *)
| HTTPException (reason : string).   (* raised by [response.read] *)

(** [str(ex)].  Only the reason of an error raised by [urlopen] is ever
    printed; the other texts are abridged. *)
Definition exn_str (e : exn) : string :=
  match e with
  | KeyError k => Py.str k
  | ValueError t => "invalid literal for int() with base 10: " ++ t
  | JSONDecodeError => "Expecting value"
  | UnicodeDecodeError => "'utf-8' codec can't decode"
  | FileNotFoundError => "No such file or directory"
  | URLError r => r
  | HTTPException r => r
  end.

(** What the far end does with a request. *)
Inductive response :=
| Body (b : list byte)               (* [read()] returns these bytes *)
| Interrupted (reason : string).     (* [read()] raises *)

Inductive reply :=
| Refused (reason : string)          (* [urlopen] raises *)
| Answered (r : response).

(** The state the methods act on: the attribute [_dict] of the instance,
    and around it the cache file, the URLs opened so far and what was
    printed. *)
Record state := {
  _dict : gmap Z (gmap Z MonthData);
  cache_file : option contents;
  requests : list string;
  stdout : list string
}.

Definition set_dict (d : gmap Z (gmap Z MonthData)) (s : state) : state :=
  {| _dict := d; cache_file := cache_file s;
     requests := requests s; stdout := stdout s |}.
Definition set_cache_file (f : option contents) (s : state) : state :=
  {| _dict := _dict s; cache_file := f;
     requests := requests s; stdout := stdout s |}.
Definition set_requests (r : list string) (s : state) : state :=
  {| _dict := _dict s; cache_file := cache_file s;
     requests := r; stdout := stdout s |}.
Definition set_stdout (o : list string) (s : state) : state :=
  {| _dict := _dict s; cache_file := cache_file s;
     requests := requests s; stdout := o |}.

(** [ProcessCalendar()] in a new process: the surroundings stay, [_dict] is
    empty. *)
Definition ProcessCalendar__init__ (s : state) : state := set_dict ∅ s.

(** ** Statements: state and exceptions

    A statement runs from a state to an outcome and a state.  An exception
    leaves the state as it was when it was raised: nothing is rolled back. *)

Inductive outcome (A : Type) :=
| Returns (a : A)
| Raises (e : exn).
Arguments Returns {A} a.
Arguments Raises {A} e.

Definition M (A : Type) : Type := state → outcome A * state.

Global Instance M_ret : MRet M := λ A a s, (Returns a, s).
Global Instance M_bind : MBind M := λ A B k c s,
  match c s with
  | (Returns a, s') => k a s'
  | (Raises e, s') => (Raises e, s')
  end.

(** An expression that touches no state: its outcome, as a statement. *)
Definition lift {A} (o : outcome A) : M A := λ s, (o, s).
Definition raise {A} (e : exn) : M A := lift (Raises e).
Definition gets {A} (f : state → A) : M A := λ s, (Returns (f s), s).
Definition modify (f : state → state) : M unit := λ s, (Returns tt, f s).

(** [try: x = c / except Exception as ex: handler / (rest)]. *)
Definition try_except {A B} (c : M A) (handler : exn → M B) (rest : A → M B) : M B :=
  λ s, match c s with
       | (Returns a, s') => rest a s'
       | (Raises e, s') => handler e s'
       end.

(** [for x in l: body]. *)
Fixpoint for_each {A} (l : list A) (body : A → M unit) : M unit :=
  match l with
  | [] => mret tt
  | x :: r => body x ;; for_each r body
  end.

(** [enumerate(l)]. *)
Definition enumerate {A} (l : list A) : list (Z * A) :=
  imap (λ i x, (Z.of_nat i, x)) l.

(** [tuple(map(int, l))]: the first text that is no integer raises. *)
Fixpoint ints (l : list string) : M (list Z) :=
  match l with
  | [] => mret []
  | t :: r =>
      match Py.int t with
      | Some z => zs ← ints r; mret (z :: zs)
      | None => raise (ValueError t)
      end
  end.

Definition print (line : string) : M unit :=
  modify (λ s, set_stdout (stdout s ++ [line]) s).

(** ** JSON *)

Module Json.

(** [json.load]: the document of a file, [JSONDecodeError] for text that is
    none. *)
Definition load (f : contents) : outcome JsonDoc :=
  match f with
  | Json doc => Returns doc
  | ZeroLength | Malformed => Raises JSONDecodeError
  end.

(** [{int(k): v for k, v in d.items()}]: a key that is no integer literal
    raises [ValueError].  The members are visited in the order of the map;
    this matters only to which of several bad keys is reported, and to
    which of two spellings of one number ("7", "07") wins. *)
Definition int_keys {V} (d : gmap string V) : outcome (gmap Z V) :=
  map_fold (λ k v acc,
              match acc with
              | Returns m =>
                  match Py.int k with
                  | Some z => Returns (<[z:=v]> m)
                  | None => Raises (ValueError k)
                  end
              | Raises e => Raises e
              end)
           (Returns ∅) d.

(** How [json.dump] writes a dictionary with [int] keys: each key becomes
    its [str]. *)
Definition text_keys {V} (d : gmap Z V) : gmap string V := kmap Py.str d.

(** [json.dump(self._dict, f, sort_keys=True)]. *)
Definition of_dict (d : gmap Z (gmap Z MonthData)) : JsonDoc :=
  text_keys (text_keys <$> d).

End Json.

(** ** The class [ProcessCalendar] *)

Definition cache_name : string := "production_calendar_cache.json".
Definition _url_template : string :=
  "https://www.consultant.ru/law/ref/calendar/proizvodstvennye/".

(** [os.path.exists(self.cache_name)]. *)
Definition exists_ : M bool := gets (λ s, bool_decide (is_Some (cache_file s))).

(** [open(self.cache_name, 'r')], and ['r+'] alike: the content of the
    existing file. *)
Definition open_ : M contents :=
  f ← gets cache_file;
  match f with
  | Some c => mret c
  | None => raise FileNotFoundError
  end.

(** [json.dump(doc, f, ...)] into the file opened with ['w'], or with ['r+']
    after [f.seek(0)] and followed by [f.truncate()]: the file then holds
    the text of [doc] and nothing else. *)
Definition dump (doc : JsonDoc) : M unit := modify (set_cache_file (Some (Json doc))).

(** [self._dict[year] = value]. *)
Definition setitem (year : Z) (value : YearData) : M unit :=
  modify (λ s, set_dict (<[year := value]> (_dict s)) s).

(** [self._dict[year][month] = value]. *)
Definition setitem2 (year month : Z) (value : MonthData) : M unit :=
  d ← gets _dict;
  match d !! year with
  | Some months => setitem year (<[month := value]> months)
  | None => raise (KeyError year)
  end.

(** [self._dict[dt.year][dt.month]]. *)
Definition getitem2 (dt : Date.datetime) : M MonthData :=
  d ← gets _dict;
  match d !! Date.year dt with
  | Some months =>
      match months !! Date.month dt with
      | Some md => mret md
      | None => raise (KeyError (Date.month dt))
      end
  | None => raise (KeyError (Date.year dt))
  end.

Section ProcessCalendar.

(** The network: what [request.urlopen] meets for a URL, given the number
    of requests made before (the far end may answer differently over
    time). *)
Variable network : nat → string → reply.

Definition urlopen (url : string) : M response := λ s,
  let s' := set_requests (requests s ++ [url]) s in
  match network (length (requests s)) url with
  | Refused reason => (Raises (URLError reason), s')
  | Answered r => (Returns r, s')
  end.

Definition read (r : response) : M (list byte) :=
  match r with
  | Body b => mret b
  | Interrupted reason => raise (HTTPException reason)
  end.

Definition decode_utf8 (b : list byte) : M string :=
  match Utf8.decode b with
  | Some text => mret text
  | None => raise UnicodeDecodeError
  end.

Definition __get_html (year : Z) : M (option string) :=
  let url := _url_template ++ Py.str year ++ "/" in
  try_except (urlopen url)
    (λ ex, print (exn_str ex) ;; mret None)
    (λ response, b ← read response; html ← decode_utf8 b; mret (Some html)).

Definition __get_year_data (year : Z) : M unit :=
  setitem year ∅ ;;
  html ← __get_html year;
  match html with
  | Some (String _ _ as html) =>
      for_each (enumerate (Re.findall Re._table_pattern html))
        (λ '(month, table),
           ph ← ints (Re.findall Re._pre_holiday_pattern table);
           we ← ints (Re.findall Re._weekend_pattern table);
           ho ← ints (Re.findall Re._holiday_pattern table);
           setitem2 year (month + 1)
             {| pre_holidays := ph; weekends := we; holidays := ho |})
  | Some EmptyString | None => mret tt
  end.

Definition __write_cache_json : M unit :=
  present ← exists_;
  if negb present then
    d ← gets _dict;
    dump (Json.of_dict d)
  else
    f ← open_;
    data ← lift (Json.load f);
    cache ← lift (Json.int_keys data);
    d ← gets _dict;
    (* [cache.update(self._dict)]: the entries of [_dict] replace those of
       [cache]; [json.dump] then writes their month keys as text, and
       those loaded from the file are text already. *)
    let cache := (Json.text_keys <$> d) ∪ cache in
    dump (Json.text_keys cache).

Definition __read_cache_json (year : Z) : M bool :=
  present ← exists_;
  if negb present then mret false
  else
    f ← open_;
    data ← lift (Json.load f);
    match data !! Py.str year with
    | Some entry =>
        if bool_decide (entry = ∅) then mret false
        else
          months ← lift (Json.int_keys entry);
          setitem year months ;;
          mret true
    | None => mret false
    end.

Definition date_info (dt : Date.datetime) : M DateInfo :=
  let date := DateInfo__init__ dt in
  d ← gets _dict;
  (if bool_decide (d !! Date.year dt = None) then
     found ← __read_cache_json (Date.year dt);
     if negb found then
       __get_year_data (Date.year dt) ;;
       __write_cache_json
     else mret tt
   else mret tt) ;;
  m1 ← getitem2 dt;
  if bool_decide (Date.day dt ∈ pre_holidays m1) then
    mret (set_is_short true (set_is_work true date))
  else
    m2 ← getitem2 dt;
    if bool_decide (Date.day dt ∈ holidays m2) then
      mret (set_is_weekend true (set_is_holiday true date))
    else
      m3 ← getitem2 dt;
      if bool_decide (Date.day dt ∈ weekends m3) then
        mret (set_is_weekend true date)
      else
        mret (set_is_work true date).

Definition pre_cache_json (years : list Z) : M unit :=
  for_each years __get_year_data ;;
  __write_cache_json.

End ProcessCalendar.

(** ** Reading [date_info] in two halves

    [date_info] first makes sure that the year is in [_dict] (lines
    104-107), then walks the [if]/[elif] chain (lines 109-118).  The two
    halves are named here so that statements can speak of the state in
    between; [date_info_halves] below shows that they compose to
    [date_info]. *)

Section Halves.

Variable network : nat → string → reply.

Definition resolve (year : Z) : M unit :=
  d ← gets _dict;
  if bool_decide (d !! year = None) then
    found ← __read_cache_json year;
    if negb found then
      __get_year_data network year ;;
      __write_cache_json
    else mret tt
  else mret tt.

End Halves.

(** The flags the chain sets for a day, given the value of its month. *)
Definition flags (md : MonthData) (dt : Date.datetime) : DateInfo :=
  let date := DateInfo__init__ dt in
  if bool_decide (Date.day dt ∈ pre_holidays md) then
    set_is_short true (set_is_work true date)
  else if bool_decide (Date.day dt ∈ holidays md) then
    set_is_weekend true (set_is_holiday true date)
  else if bool_decide (Date.day dt ∈ weekends md) then
    set_is_weekend true date
  else set_is_work true date.

(** The outcome of the chain on a given [_dict]. *)
Definition classification (d : gmap Z (gmap Z MonthData)) (dt : Date.datetime)
  : outcome DateInfo :=
  match d !! Date.year dt with
  | Some months =>
      match months !! Date.month dt with
      | Some md => Returns (flags md dt)
      | None => Raises (KeyError (Date.month dt))
      end
  | None => Raises (KeyError (Date.year dt))
  end.

(** The URL requested for a year. *)
Definition url_of (year : Z) : string := _url_template ++ Py.str year ++ "/".

(** The mapping a persisted write starts from: nothing when there is no
    file, else the loaded document with its year keys made integers. *)
Definition persisted (f : option contents) : outcome (gmap Z JsonYear) :=
  match f with
  | None => Returns ∅
  | Some c =>
      match Json.load c with
      | Returns data => Json.int_keys data
      | Raises e => Raises e
      end
  end.

(** The value built for one table (lines 87-91) when every captured text
    is an integer literal. *)
Definition month_of_table (table : string) : option MonthData :=
  ph ← mapM Py.int (Re.findall Re._pre_holiday_pattern table);
  we ← mapM Py.int (Re.findall Re._weekend_pattern table);
  ho ← mapM Py.int (Re.findall Re._holiday_pattern table);
  Some {| pre_holidays := ph; weekends := we; holidays := ho |}.

(** ** Sample data *)

Module Sample.

(** A far end that cannot be reached, and one that serves a fixed page. *)
Definition offline : nat → string → reply :=
  λ _ _, Refused "<urlopen error timed out>".
Definition serves (page : list byte) : nat → string → reply :=
  λ _ _, Answered (Body page).
Definition hangs_up : nat → string → reply :=
  λ _ _, Answered (Interrupted "IncompleteRead(0 bytes read)").

(** The January of the scenario: 1-7 holidays, 8 a pre-holiday, 1-9 in the
    weekend cells. *)
Definition january : MonthData :=
  {| pre_holidays := [8];
     weekends := [1; 2; 3; 4; 5; 6; 7; 8; 9];
     holidays := [1; 2; 3; 4; 5; 6; 7] |}.

Definition on (y m d : Z) : Date.datetime :=
  {| Date.year := y; Date.month := m; Date.day := d |}.

(** A new process with no cache file, and one that holds 2024. *)
Definition start : state :=
  {| _dict := ∅; cache_file := None; requests := []; stdout := [] |}.
Definition holding_2024 : state := set_dict {[2024 := {[1 := january]}]} start.

Definition td (class text : string) : string :=
  "<td class=" ++ Re.quote ++ class ++ Re.quote ++ ">" ++ text ++ "</td>".
Definition table (body : string) : string :=
  "<table class=" ++ Re.quote ++ "cal" ++ Re.quote ++ ">" ++ body ++ "</table>".

(** A page of two months, and one whose only weekend cell holds no
    number. *)
Definition two_months : string :=
  "<html>" ++
  table (td "holiday weekend" "1" ++ td "preholiday" "8" ++ td "weekend" "9") ++
  table (td "weekend" "3") ++ "</html>".
Definition odd_cell : string := table (td "weekend" "x").

End Sample.

(** ** More sample data *)

Module Cases.

(** No instance data, and a store that holds the January of 2024. *)
Definition cached_2024 : state :=
  set_cache_file
    (Some (Json (Json.of_dict {[2024 := {[1 := Sample.january]}]})))
    Sample.start.

(** A store that is no JSON at all, and one with a year key that is no
    number. *)
Definition corrupt : state := set_cache_file (Some Malformed) Sample.start.
Definition odd_key : state :=
  set_cache_file (Some (Json {["next year" := ∅]})) Sample.start.

(** An instance that holds the January of 2024 over a store that holds it
    too. *)
Definition stored_2024 : state :=
  set_cache_file
    (Some (Json (Json.of_dict {[2024 := {[1 := Sample.january]}]})))
    Sample.holding_2024.

(** Networks that serve the page of two months, and the page with the odd
    cell. *)
Definition two_months_net : nat → string → reply :=
  Sample.serves (list_byte_of_string Sample.two_months).
Definition odd_cell_net : nat → string → reply :=
  Sample.serves (list_byte_of_string Sample.odd_cell).

(** A page whose second table has a cell that is no number. *)
Definition second_table_odd : string :=
  Sample.table (Sample.td "weekend" "6") ++ Sample.table (Sample.td "weekend" "x").

End Cases.

(** ** Where the builtins are followed exactly

    [Py.int] and [Py.str] above know neither the limit that CPython puts
    on conversions between [int] and [str] (4300 digits unless changed)
    nor, for [int] and for the [\d] of the pre-holiday pattern, the
    decimal digits and blanks outside ASCII.  The conditions below keep a
    statement within the inputs on which the builtins do what the models
    do. *)

Module Exact.

(** [sys.int_info.default_max_str_digits]. *)
Definition max_str_digits : nat := 4300.

(** [str(z)], and with it an f-string or a JSON key or number made from
    [z], does not raise: [z] has at most [max_str_digits] digits. *)
Definition printable (z : Z) : Prop := Z.abs z < 10 ^ Z.of_nat max_str_digits.

(** A text short enough for [int] not to refuse it for its length. *)
Definition within_limit (t : string) : Prop :=
  (String.length t ≤ max_str_digits)%nat.

Definition is_ascii (c : ascii) : bool := (N_of_ascii c <? 128)%N.

(** The literal that opens the pre-holiday pattern. *)
Definition pre_holiday_opening : string :=
  "<td class=" ++ Re.quote ++ "preholiday" ++ Re.quote ++ ">".

(** Wherever the text has the opening of a pre-holiday cell, the ASCII
    digits that follow it end at an ASCII character or at the end of the
    text.  The run of [\d] then is that run of ASCII digits, whatever
    other decimal digits the pattern would accept. *)
Fixpoint ascii_after_digits (s : string) : bool :=
  match Re.literal pre_holiday_opening s with
  | Some r =>
      match Re.skip (String.length (Re.digit_run r)) r with
      | String c _ => is_ascii c
      | EmptyString => true
      end
  | None => true
  end
  && match s with
     | String _ r => ascii_after_digits r
     | EmptyString => true
     end.

(** Every integer held in [_dict] (years, months, days) is one that
    [json.dump] can write. *)
Definition printable_month (md : MonthData) : Prop :=
  Forall printable (pre_holidays md ++ weekends md ++ holidays md).
Definition printable_memory (d : gmap Z (gmap Z MonthData)) : Prop :=
  map_Forall (λ y months,
                printable y ∧
                map_Forall (λ m md, printable m ∧ printable_month md) months) d.

End Exact.

Module PyFacts.
Import Py.

Lemma is_digit_not_space c : is_digit c = true → is_space c = false.
Proof. destruct c as [[] [] [] [] [] [] [] []]; vm_compute; congruence. Qed.

Lemma is_digit_not_sign c :
  is_digit c = true → Ascii.eqb c "-" = false ∧ Ascii.eqb c "+" = false ∧ Ascii.eqb c "_" = false.
Proof. destruct c as [[] [] [] [] [] [] [] []]; vm_compute; intuition congruence. Qed.

Lemma lstrip_digits s : all_digits s = true → lstrip s = s.
Proof.
  destruct s as [|c r]; simpl; [done|].
  intros [Hc _]%andb_true_iff. by rewrite (is_digit_not_space c Hc).
Qed.

Lemma rstrip_digits s : all_digits s = true → rstrip s = s.
Proof.
  induction s as [|c r IH]; simpl; [done|].
  intros [Hc Hr]%andb_true_iff. rewrite (IH Hr).
  destruct r; [|done]. by rewrite (is_digit_not_space c Hc).
Qed.

Lemma strip_digits s : all_digits s = true → strip s = s.
Proof. intros H. unfold strip. rewrite lstrip_digits by done. by apply rstrip_digits. Qed.

Lemma digits_digits s :
  all_digits s = true → digits true s = Some s ∧ (s ≠ EmptyString → digits false s = Some s).
Proof.
  induction s as [|c r IH]; simpl; [done|].
  intros [Hc Hr]%andb_true_iff. rewrite Hc.
  destruct (IH Hr) as [-> _]. done.
Qed.

Lemma uint_of_string_digits s :
  all_digits s = true → is_Some (NilEmpty.uint_of_string s).
Proof.
  induction s as [|c r IH]; simpl; [eauto|].
  intros [Hc Hr]%andb_true_iff. destruct (IH Hr) as [d ->].
  destruct c as [[] [] [] [] [] [] [] []]; try discriminate Hc; simpl; eauto.
Qed.

Lemma string_of_uint_digits d : all_digits (NilEmpty.string_of_uint d) = true.
Proof. induction d; simpl; auto. Qed.

Lemma string_of_uint_nonempty d : d ≠ Decimal.Nil → NilEmpty.string_of_uint d ≠ EmptyString.
Proof. by destruct d. Qed.

(** [int] reads a non-empty run of digits as the number it spells. *)
Lemma int_digits s :
  all_digits s = true → s ≠ EmptyString →
  int s = (d ← NilEmpty.uint_of_string s; Some (Z.of_uint d)) ∧ is_Some (int s).
Proof.
  intros Hs Hne. unfold int. rewrite strip_digits by done.
  destruct s as [|c r]; [done|].
  pose proof Hs as [Hc Hr]%andb_true_iff.
  destruct (is_digit_not_sign c Hc) as (-> & -> & _).
  unfold unsigned. destruct (digits_digits _ Hs) as [_ ->]; [|done].
  split; [done|]. simpl. destruct (uint_of_string_digits _ Hs) as [d Hd].
  simpl in Hd. rewrite Hd. simpl. eauto.
Qed.

Lemma unsigned_to_uint p :
  unsigned (NilEmpty.string_of_uint (Pos.to_uint p)) = Some (Z.pos p).
Proof.
  unfold unsigned.
  destruct (digits_digits _ (string_of_uint_digits (Pos.to_uint p))) as [_ ->].
  - simpl. rewrite NilEmpty.usu. simpl. unfold Z.of_uint.
    by rewrite DecimalPos.Unsigned.of_to.
  - apply string_of_uint_nonempty, DecimalPos.Unsigned.to_uint_nonnil.
Qed.

(** [int(str(z)) == z]. *)
Lemma int_str z : int (str z) = Some z.
Proof.
  destruct z as [|p|p]; [done| |].
  - unfold str. simpl.
    assert (NilZero.string_of_uint (Pos.to_uint p) = NilEmpty.string_of_uint (Pos.to_uint p)) as ->.
    { pose proof (DecimalPos.Unsigned.to_uint_nonnil p). by destruct (Pos.to_uint p). }
    destruct (int_digits (NilEmpty.string_of_uint (Pos.to_uint p))) as [-> _].
    + apply string_of_uint_digits.
    + apply string_of_uint_nonempty, DecimalPos.Unsigned.to_uint_nonnil.
    + rewrite NilEmpty.usu. simpl. unfold Z.of_uint. by rewrite DecimalPos.Unsigned.of_to.
  - unfold str. simpl.
    assert (NilZero.string_of_uint (Pos.to_uint p) = NilEmpty.string_of_uint (Pos.to_uint p)) as ->.
    { pose proof (DecimalPos.Unsigned.to_uint_nonnil p). by destruct (Pos.to_uint p). }
    unfold int, strip. simpl lstrip.
    change (rstrip (String "-" ?r)) with
      (match rstrip r with EmptyString => String "-" EmptyString | r' => String "-" r' end).
    rewrite rstrip_digits by apply string_of_uint_digits.
    destruct (NilEmpty.string_of_uint (Pos.to_uint p)) eqn:E.
    { by apply string_of_uint_nonempty in E; [|apply DecimalPos.Unsigned.to_uint_nonnil]. }
    rewrite <- E. simpl. by rewrite unsigned_to_uint.
Qed.

Global Instance str_inj : Inj (=) (=) str.
Proof. intros x y H. apply (inj Some). by rewrite <- !int_str, H. Qed.

End PyFacts.

Import PyFacts.

Module JsonFacts.
Import Json.

Lemma int_keys_empty {V} : int_keys (∅ : gmap string V) = Returns ∅.
Proof. unfold int_keys. by rewrite map_fold_empty. Qed.

Lemma lookup_text_keys {V} (d : gmap Z V) (z : Z) : text_keys d !! Py.str z = d !! z.
Proof. unfold text_keys. apply (lookup_kmap Py.str). Qed.

Lemma text_keys_empty_iff {V} (d : gmap Z V) : text_keys d = ∅ ↔ d = ∅.
Proof. unfold text_keys. apply (kmap_empty_iff Py.str). Qed.

(** Reading back the keys that [json.dump] wrote gives the dictionary that
    was written. *)
Lemma int_keys_text_keys {V} (d : gmap Z V) : int_keys (text_keys d) = Returns d.
Proof.
  induction d as [|z v d Hz IH] using map_ind.
  - unfold text_keys. rewrite kmap_empty. apply int_keys_empty.
  - unfold text_keys, int_keys in *. rewrite (kmap_insert Py.str).
    rewrite map_fold_insert_L.
    + rewrite IH, int_str. done.
    + intros j1 j2 v1 v2 acc Hne H1 H2.
      destruct acc as [m|e]; [|done].
      rewrite <- (kmap_insert Py.str) in H1, H2.
      apply lookup_kmap_Some in H1 as (z1 & -> & _); [|apply _].
      apply lookup_kmap_Some in H2 as (z2 & -> & _); [|apply _].
      rewrite !int_str. f_equal. apply insert_insert_ne. congruence.
    + by rewrite (lookup_kmap Py.str).
Qed.

End JsonFacts.

Import JsonFacts.

Module ReFacts.
Import Re.

(** Every text [findall] returns was captured by the pattern somewhere. *)
Lemma scan_groups (p : pattern) n s g :
  g ∈ scan p n s → ∃ s' k, p s' = Some (g, k).
Proof.
  revert n. induction s as [|c r IH]; intros n; simpl.
  - destruct n; [|by intros ?%elem_of_nil].
    destruct (p EmptyString) as [[g' k]|] eqn:E; [|by intros ?%elem_of_nil].
    intros ->%list_elem_of_singleton. eauto.
  - destruct n; [|by apply IH].
    destruct (p (String c r)) as [[g' k]|] eqn:E; [|by apply IH].
    intros [->|?]%elem_of_cons; [eauto|by eapply IH].
Qed.

Lemma digit_run_digits s : Py.all_digits (digit_run s) = true.
Proof.
  induction s as [|c r IH]; simpl; [done|].
  destruct (Py.is_digit c) eqn:E; simpl; [|done]. by rewrite E.
Qed.

Lemma pre_holiday_group s g k :
  _pre_holiday_pattern s = Some (g, k) →
  Py.all_digits g = true ∧ g ≠ EmptyString.
Proof.
  unfold _pre_holiday_pattern.
  destruct (literal _ s) as [r|]; simpl; [|done].
  pose proof (digit_run_digits r) as Hd.
  destruct (digit_run r) as [|c g'] eqn:E; [done|].
  destruct (literal "<" _); simpl; [|done]. by intros [= <- _].
Qed.

(** The pre-holiday pattern captures digits only: [int] never fails on
    them. *)
Lemma pre_holiday_ints table :
  is_Some (mapM Py.int (findall _pre_holiday_pattern table)).
Proof.
  apply mapM_is_Some, Forall_forall. intros g (s' & k & H)%scan_groups.
  apply pre_holiday_group in H as [Hd Hne].
  by destruct (int_digits g Hd Hne) as [_ ?].
Qed.

End ReFacts.

(** An integer of at most [n] digits, [n] within the limit, is printable. *)
Lemma printable_digits (n : nat) (z : Z) :
  (n ≤ Exact.max_str_digits)%nat → Z.abs z < 10 ^ Z.of_nat n → Exact.printable z.
Proof.
  intros Hn Hz. unfold Exact.printable.
  eapply Z.lt_le_trans; [exact Hz|]. apply Z.pow_le_mono_r; lia.
Qed.

(** Settles [Exact.printable] of a literal of at most four digits. *)
Ltac four_digits :=
  apply (printable_digits 4); [compute_done | vm_compute; reflexivity].

Import ReFacts.

Ltac unfold_M :=
  unfold mbind, M_bind, mret, M_ret, gets, modify, raise, lift, try_except in *.

Lemma bind_run {A B} (c : M A) (k : A → M B) s :
  (c ≫= k) s =
  match c s with
  | (Returns a, s') => k a s'
  | (Raises e, s') => (Raises e, s')
  end.
Proof. unfold mbind, M_bind. by destruct (c s) as [[]]. Qed.

Lemma getitem2_run dt s :
  getitem2 dt s =
  (match _dict s !! Date.year dt with
   | Some months =>
       match months !! Date.month dt with
       | Some md => Returns md
       | None => Raises (KeyError (Date.month dt))
       end
   | None => Raises (KeyError (Date.year dt))
   end, s).
Proof.
  unfold getitem2. unfold_M.
  destruct (_dict s !! Date.year dt) as [months|]; [|done].
  by destruct (months !! Date.month dt).
Qed.

Section Facts.

Variable network : nat → string → reply.

(** [date_info] is its two halves, one after the other. *)
Lemma date_info_halves dt s :
  date_info network dt s =
  match resolve network (Date.year dt) s with
  | (Returns _, s1) => (classification (_dict s1) dt, s1)
  | (Raises e, s1) => (Raises e, s1)
  end.
Proof.
  unfold date_info, resolve.
  rewrite (bind_run (gets _dict)). rewrite (bind_run (gets _dict)).
  unfold gets at 1 2. cbv beta iota.
  rewrite bind_run.
  destruct (_ s) as [[[]|e] s1]; [|done].
  unfold_M.
  pose proof (getitem2_run dt s1) as G. unfold classification, flags.
  destruct (_dict s1 !! Date.year dt) as [months|]; [|by rewrite G].
  destruct (months !! Date.month dt) as [md|]; [|by rewrite G].
  rewrite G. case_bool_decide; [done|].
  rewrite G. case_bool_decide; [done|].
  rewrite G. by case_bool_decide.
Qed.

(** A year that is in memory needs no resolving. *)
Lemma resolve_in_memory year s :
  is_Some (_dict s !! year) → resolve network year s = (Returns tt, s).
Proof.
  intros [yd Hyd]. unfold resolve. unfold_M.
  rewrite bool_decide_eq_false_2; [done|]. by rewrite Hyd.
Qed.

Lemma date_info_in_memory dt s :
  is_Some (_dict s !! Date.year dt) →
  date_info network dt s = (classification (_dict s) dt, s).
Proof. intros H. by rewrite date_info_halves, resolve_in_memory. Qed.

(** *** The persisted write and the cache read, as functions of the state *)

Lemma write_run s :
  __write_cache_json s =
  match persisted (cache_file s) with
  | Returns prior =>
      (Returns tt,
       set_cache_file
         (Some (Json (Json.text_keys ((Json.text_keys <$> _dict s) ∪ prior)))) s)
  | Raises e => (Raises e, s)
  end.
Proof.
  unfold __write_cache_json, persisted, exists_, open_, dump, Json.of_dict.
  unfold_M. destruct (cache_file s) as [c|] eqn:Hc; simpl; rewrite ?Hc.
  - destruct (Json.load c) as [data|e]; [|done].
    by destruct (Json.int_keys data).
  - by rewrite (right_id_L ∅ (∪)).
Qed.

Lemma read_run year s :
  __read_cache_json year s =
  match cache_file s with
  | None => (Returns false, s)
  | Some c =>
      match Json.load c with
      | Raises e => (Raises e, s)
      | Returns data =>
          match data !! Py.str year with
          | Some entry =>
              if bool_decide (entry = ∅) then (Returns false, s)
              else
                match Json.int_keys entry with
                | Returns months =>
                    (Returns true, set_dict (<[year := months]> (_dict s)) s)
                | Raises e => (Raises e, s)
                end
          | None => (Returns false, s)
          end
      end
  end.
Proof.
  unfold __read_cache_json, exists_, open_, setitem. unfold_M.
  destruct (cache_file s) as [c|] eqn:Hc; simpl; rewrite ?Hc; [|done].
  destruct (Json.load c) as [data|e]; [|done].
  destruct (data !! Py.str year) as [entry|]; [|done].
  case_bool_decide; [done|]. by destruct (Json.int_keys entry).
Qed.

Lemma write_frame s o s' :
  __write_cache_json s = (o, s') →
  _dict s' = _dict s ∧ requests s' = requests s ∧ stdout s' = stdout s.
Proof.
  rewrite write_run. destruct (persisted (cache_file s)); by intros [= <- <-].
Qed.

Lemma read_frame year s o s' :
  __read_cache_json year s = (o, s') →
  cache_file s' = cache_file s ∧ requests s' = requests s ∧
  ((s' = s ∧ o ≠ Returns true) ∨ (o = Returns true ∧ is_Some (_dict s' !! year))).
Proof.
  rewrite read_run.
  destruct (cache_file s) as [c|] eqn:Hc; [|intros [= <- <-]; naive_solver].
  destruct (Json.load c) as [data|e]; [|intros [= <- <-]; naive_solver].
  destruct (data !! Py.str year) as [entry|]; [|intros [= <- <-]; naive_solver].
  case_bool_decide; [intros [= <- <-]; naive_solver|].
  destruct (Json.int_keys entry) as [months|e]; intros [= <- <-]; [|naive_solver].
  simpl. rewrite lookup_insert_eq. naive_solver.
Qed.

(** The store a write leaves is read back by the next write as the
    mapping that was written. *)
Lemma persisted_text_keys (prior : gmap Z JsonYear) :
  persisted (Some (Json (Json.text_keys prior))) = Returns prior.
Proof. simpl. apply int_keys_text_keys. Qed.

(** *** The fetch *)

Lemma get_html_run year s :
  __get_html network year s =
  let s' := set_requests (requests s ++ [url_of year]) s in
  match network (length (requests s)) (url_of year) with
  | Refused reason => (Returns None, set_stdout (stdout s ++ [reason]) s')
  | Answered (Interrupted reason) => (Raises (HTTPException reason), s')
  | Answered (Body b) =>
      match Utf8.decode b with
      | Some html => (Returns (Some html), s')
      | None => (Raises UnicodeDecodeError, s')
      end
  end.
Proof.
  unfold __get_html, urlopen, read, decode_utf8, print, url_of. unfold_M.
  destruct (network _ _) as [reason|[b|reason]]; simpl; try done.
  by destruct (Utf8.decode b).
Qed.

Lemma get_html_frame year s o s' :
  __get_html network year s = (o, s') →
  _dict s' = _dict s ∧ cache_file s' = cache_file s ∧
  requests s' = (requests s ++ [url_of year])%list.
Proof.
  rewrite get_html_run. cbv zeta.
  destruct (network _ _) as [reason|[b|reason]]; try by intros [= <- <-].
  destruct (Utf8.decode b); by intros [= <- <-].
Qed.

Lemma ints_pure l s : ∃ o, ints l s = (o, s).
Proof.
  induction l as [|t l IH]; simpl; [by eexists|].
  destruct (Py.int t); [|by eexists].
  unfold_M. destruct IH as [[zs|e] ->]; by eexists.
Qed.

(** The loop over the tables keeps the year in [_dict] and touches nothing
    else. *)
Lemma tables_loop_frame year (l : list (Z * string)) s o s' :
  is_Some (_dict s !! year) →
  for_each l
    (λ '(month, table),
       ph ← ints (Re.findall Re._pre_holiday_pattern table);
       we ← ints (Re.findall Re._weekend_pattern table);
       ho ← ints (Re.findall Re._holiday_pattern table);
       setitem2 year (month + 1)
         {| pre_holidays := ph; weekends := we; holidays := ho |}) s = (o, s') →
  is_Some (_dict s' !! year) ∧ cache_file s' = cache_file s ∧
  requests s' = requests s ∧
  (∀ y, y ≠ year → _dict s' !! y = _dict s !! y).
Proof.
  revert s. induction l as [|[month table] l IH]; intros s Hy; simpl.
  { by intros [= <- <-]. }
  rewrite bind_run.
  match goal with |- context [ match ?c s with _ => _ end ] =>
    assert (∃ o1 s1, c s = (o1, s1) ∧ is_Some (_dict s1 !! year) ∧
              cache_file s1 = cache_file s ∧ requests s1 = requests s ∧
              (∀ y, y ≠ year → _dict s1 !! y = _dict s !! y))
      as (o1 & s1 & -> & Hy1 & Hc1 & Hr1 & Hd1)
  end.
  { rewrite !bind_run.
    destruct (ints_pure (Re.findall Re._pre_holiday_pattern table) s) as [[ph|e] ->];
      [|by eauto 10].
    rewrite !bind_run.
    destruct (ints_pure (Re.findall Re._weekend_pattern table) s) as [[we|e] ->];
      [|by eauto 10].
    rewrite !bind_run.
    destruct (ints_pure (Re.findall Re._holiday_pattern table) s) as [[ho|e] ->];
      [|by eauto 10].
    unfold setitem2, setitem. unfold_M. destruct Hy as [months Hy]. rewrite Hy.
    eexists _, _. split; [done|]. simpl. rewrite lookup_insert_eq.
    repeat split; eauto. intros y Hne. by rewrite lookup_insert_ne. }
  destruct o1 as [[]|e].
  - intros H. apply IH in H as (? & ? & ? & Hd); [|done].
    repeat split; try congruence. intros y Hne. rewrite Hd by done. auto.
  - by intros [= <- <-].
Qed.

Lemma get_year_data_frame year s o s' :
  __get_year_data network year s = (o, s') →
  is_Some (_dict s' !! year) ∧ cache_file s' = cache_file s ∧
  requests s' = (requests s ++ [url_of year])%list ∧
  (∀ y, y ≠ year → _dict s' !! y = _dict s !! y).
Proof.
  unfold __get_year_data. rewrite bind_run.
  unfold setitem at 1. unfold modify at 1. cbv beta iota.
  rewrite bind_run.
  destruct (__get_html network year _) as [[html|e] s1] eqn:E;
    apply get_html_frame in E as (Hd & Hc & Hr); simpl in *.
  - assert (is_Some (_dict s1 !! year)) as Hy.
    { rewrite Hd, lookup_insert_eq. eauto. }
    assert (∀ y, y ≠ year → _dict s1 !! y = _dict s !! y) as Hother.
    { intros y Hne. by rewrite Hd, lookup_insert_ne. }
    destruct html as [[|c html]|].
    + by intros [= <- <-].
    + intros H. apply tables_loop_frame in H as (? & ? & ? & Hd'); [|done].
      repeat split; try congruence. intros y Hne. rewrite Hd' by done. auto.
    + by intros [= <- <-].
  - intros [= _ Hs]. rewrite <- Hs, Hd, lookup_insert_eq.
    repeat split; eauto. intros y Hne. by rewrite lookup_insert_ne.
Qed.

(** *** Extraction *)

Lemma ints_mapM l zs s : mapM Py.int l = Some zs → ints l s = (Returns zs, s).
Proof.
  revert zs. induction l as [|t l IH]; intros zs; simpl.
  - by intros [= <-].
  - destruct (Py.int t) as [z|]; simpl; [|done].
    destruct (mapM Py.int l) as [zs'|]; simpl; [|done].
    intros [= <-]. rewrite bind_run, (IH zs') by done. done.
Qed.

Lemma table_body year month table md months s :
  month_of_table table = Some md →
  _dict s !! year = Some months →
  (ph ← ints (Re.findall Re._pre_holiday_pattern table);
   we ← ints (Re.findall Re._weekend_pattern table);
   ho ← ints (Re.findall Re._holiday_pattern table);
   setitem2 year (month + 1)
     {| pre_holidays := ph; weekends := we; holidays := ho |}) s =
  (Returns tt, set_dict (<[year := <[month + 1 := md]> months]> (_dict s)) s).
Proof.
  unfold month_of_table. intros Hmd Hy.
  destruct (mapM Py.int (Re.findall Re._pre_holiday_pattern table)) as [ph|] eqn:E1;
    simpl in Hmd; [|done].
  destruct (mapM Py.int (Re.findall Re._weekend_pattern table)) as [we|] eqn:E2;
    simpl in Hmd; [|done].
  destruct (mapM Py.int (Re.findall Re._holiday_pattern table)) as [ho|] eqn:E3;
    simpl in Hmd; [|done].
  injection Hmd as <-.
  rewrite bind_run, (ints_mapM _ _ _ E1).
  rewrite bind_run, (ints_mapM _ _ _ E2).
  rewrite bind_run, (ints_mapM _ _ _ E3).
  unfold setitem2, setitem. unfold_M. by rewrite Hy.
Qed.


(** Resolving a year either leaves it in [_dict], after at most one
    request, or fails on the cache file before anything was changed. *)
Lemma resolve_frame year s o s' :
  resolve network year s = (o, s') →
  (is_Some (_dict s' !! year) ∧
   (requests s' = requests s ∨ requests s' = (requests s ++ [url_of year])%list)) ∨
  (s' = s ∧ _dict s !! year = None ∧ ∃ e, o = Raises e).
Proof.
  unfold resolve. rewrite bind_run. unfold gets at 1. cbv beta iota.
  case_bool_decide as Hmem.
  - rewrite bind_run.
    destruct (__read_cache_json year s) as [[found|e] s1] eqn:E.
    + apply read_frame in E as (Hc & Hr & Hcase). destruct found; simpl.
      * intros [= <- <-]. destruct Hcase as [[_ ?]|[_ ?]]; [done|left; auto].
      * destruct Hcase as [[-> _]|[? _]]; [|done]. rewrite bind_run.
        destruct (__get_year_data network year s) as [[[]|e] s2] eqn:E;
          apply get_year_data_frame in E as (Hy & Hc2 & Hr2 & _).
        -- intros H. apply write_frame in H as (Hd3 & Hr3 & _).
           left. rewrite Hd3, Hr3. auto.
        -- intros [= <- <-]. left. auto.
    + intros [= <- <-]. apply read_frame in E as (_ & _ & [[-> _]|[? _]]); [|done].
      right. eauto.
  - intros [= <- <-]. left. split; [|auto].
    by apply not_eq_None_Some.
Qed.

Lemma resolve_run year s :
  resolve network year s =
  if bool_decide (_dict s !! year = None) then
    match __read_cache_json year s with
    | (Returns true, s1) => (Returns tt, s1)
    | (Returns false, s1) =>
        match __get_year_data network year s1 with
        | (Returns _, s2) => __write_cache_json s2
        | (Raises e, s2) => (Raises e, s2)
        end
    | (Raises e, s1) => (Raises e, s1)
    end
  else (Returns tt, s).
Proof.
  unfold resolve. rewrite bind_run. unfold gets at 1. cbv beta iota.
  case_bool_decide; [|done]. rewrite bind_run.
  destruct (__read_cache_json year s) as [[[]|e] s1]; simpl; done.
Qed.

(** A refused request: the year is left in [_dict] without any month, the
    reason is printed, and nothing is raised. *)
Lemma get_year_data_refused year s reason :
  network (length (requests s)) (url_of year) = Refused reason →
  __get_year_data network year s =
  (Returns tt,
   set_stdout (stdout s ++ [reason])
     (set_requests (requests s ++ [url_of year])
        (set_dict (<[year := ∅]> (_dict s)) s))).
Proof.
  intros Hnet. unfold __get_year_data. rewrite bind_run.
  unfold setitem at 1. unfold modify at 1. cbv beta iota.
  rewrite bind_run, get_html_run. simpl. by rewrite Hnet.
Qed.

(** After a refused request for a year that is neither in memory nor
    usable from the cache, the year is in [_dict] with no month. *)
Lemma refused_leaves_empty_year dt s o s1 :
  date_info network dt s = (o, s1) →
  _dict s !! Date.year dt = None →
  __read_cache_json (Date.year dt) s = (Returns false, s) →
  (∃ reason, network (length (requests s)) (url_of (Date.year dt)) = Refused reason) →
  _dict s1 !! Date.year dt = Some ∅.
Proof.
  intros Hrun Hmem Hread [reason Hnet].
  rewrite date_info_halves, resolve_run in Hrun.
  rewrite bool_decide_eq_true_2, Hread in Hrun by done.
  rewrite (get_year_data_refused _ _ _ Hnet) in Hrun.
  destruct (__write_cache_json _) as [[[]|e] s2] eqn:Hw;
    apply write_frame in Hw as (Hd & _); simpl in Hd;
    injection Hrun as <- <-; by rewrite Hd, lookup_insert_eq.
Qed.

(** And when the write that follows goes through, the store holds the year
    as the empty object. *)
Lemma refused_persists_empty_year dt s o s1 prior :
  date_info network dt s = (o, s1) →
  _dict s !! Date.year dt = None →
  __read_cache_json (Date.year dt) s = (Returns false, s) →
  (∃ reason, network (length (requests s)) (url_of (Date.year dt)) = Refused reason) →
  persisted (cache_file s) = Returns prior →
  ∃ doc, cache_file s1 = Some (Json doc) ∧ doc !! Py.str (Date.year dt) = Some ∅.
Proof.
  intros Hrun Hmem Hread [reason Hnet] Hprior.
  rewrite date_info_halves, resolve_run in Hrun.
  rewrite bool_decide_eq_true_2, Hread in Hrun by done.
  rewrite (get_year_data_refused _ _ _ Hnet), write_run in Hrun.
  simpl in Hrun. rewrite Hprior in Hrun. injection Hrun as _ <-. simpl.
  eexists. split; [done|].
  rewrite lookup_text_keys, lookup_union, lookup_fmap, lookup_insert_eq. simpl.
  rewrite union_Some_l. unfold Json.text_keys. by rewrite kmap_empty.
Qed.

(** ** The claims *)

(** C1: once the year is resolved and holds the month, [date_info] returns
    the flags fixed by the first match among [pre_holidays], [holidays],
    [weekends], in that order; a pre-holiday wins over the other two. *)
Theorem C1_precedence dt s s1 months md :
  resolve network (Date.year dt) s = (Returns tt, s1) →
  _dict s1 !! Date.year dt = Some months →
  months !! Date.month dt = Some md →
  ∃ r, date_info network dt s = (Returns r, s1) ∧ datetime r = dt ∧
    (Date.day dt ∈ pre_holidays md →
       is_work r = true ∧ is_short r = true ∧
       is_holiday r = false ∧ is_weekend r = false) ∧
    (Date.day dt ∉ pre_holidays md → Date.day dt ∈ holidays md →
       is_work r = false ∧ is_short r = false ∧
       is_holiday r = true ∧ is_weekend r = true) ∧
    (Date.day dt ∉ pre_holidays md → Date.day dt ∉ holidays md →
     Date.day dt ∈ weekends md →
       is_work r = false ∧ is_short r = false ∧
       is_holiday r = false ∧ is_weekend r = true) ∧
    (Date.day dt ∉ pre_holidays md → Date.day dt ∉ holidays md →
     Date.day dt ∉ weekends md →
       is_work r = true ∧ is_short r = false ∧
       is_holiday r = false ∧ is_weekend r = false).
Proof.
  intros Hres Hy Hm. exists (flags md dt).
  rewrite date_info_halves, Hres. unfold classification. rewrite Hy, Hm.
  split; [done|]. unfold flags.
  repeat case_bool_decide; simpl; repeat split; intros; done.
Qed.

(** C2: when the data resolved for the year lacks the month, [date_info]
    raises; the error is the [KeyError] of the month lookup as soon as the
    resolution itself went through.  After a refused request the year is
    in [_dict] with no month at all, so every date of it raises. *)
Theorem C2_missing_month_raises dt s o s1 :
  date_info network dt s = (o, s1) →
  ((∀ months, _dict s1 !! Date.year dt = Some months →
              months !! Date.month dt = None) →
   ∃ e, o = Raises e ∧
        (resolve network (Date.year dt) s = (Returns tt, s1) →
         e = KeyError (Date.month dt))) ∧
  (_dict s !! Date.year dt = None →
   __read_cache_json (Date.year dt) s = (Returns false, s) →
   (∃ reason, network (length (requests s)) (url_of (Date.year dt)) = Refused reason) →
   _dict s1 !! Date.year dt = Some ∅ ∧ ∃ e, o = Raises e).
Proof.
  intros Hrun.
  assert ((∀ months, _dict s1 !! Date.year dt = Some months →
              months !! Date.month dt = None) →
   ∃ e, o = Raises e ∧
        (resolve network (Date.year dt) s = (Returns tt, s1) →
         e = KeyError (Date.month dt))) as HA.
  { intros Hmiss. rewrite date_info_halves in Hrun.
    destruct (resolve network (Date.year dt) s) as [[[]|e] s2] eqn:Hres.
    - injection Hrun as <- <-.
      apply resolve_frame in Hres as [[[months Hy] _]|(_ & _ & ? & ?)]; [|done].
      unfold classification. rewrite Hy, (Hmiss _ Hy). eauto.
    - injection Hrun as <- <-. eexists. split; [done|]. intros [=]. }
  split; [done|]. intros Hmem Hread Hnet.
  pose proof (refused_leaves_empty_year dt s o s1 Hrun Hmem Hread Hnet) as Hempty.
  split; [done|]. destruct HA as (e & -> & _); [|eauto].
  intros months. rewrite Hempty. by intros [= <-].
Qed.


(** C4: a year with at least one month that went through a successful
    write is read back, by an instance that starts empty, as the very
    mapping that was in memory: integer month keys, and for each month the
    same three day lists. *)
Theorem C4_round_trip year months s s1 :
  _dict s !! year = Some months →
  months ≠ ∅ →
  __write_cache_json s = (Returns tt, s1) →
  __read_cache_json year (ProcessCalendar__init__ s1) =
    (Returns true, set_dict {[year := months]} s1).
Proof.
  intros Hy Hne. rewrite write_run.
  destruct (persisted (cache_file s)) as [prior|e]; [|done].
  intros [= <-]. rewrite read_run. simpl.
  rewrite lookup_text_keys, lookup_union, lookup_fmap, Hy. simpl.
  rewrite union_Some_l. rewrite bool_decide_eq_false_2.
  - rewrite int_keys_text_keys. by rewrite insert_empty.
  - by rewrite text_keys_empty_iff.
Qed.

(** C5: a second [date_info] for the same date opens no URL and changes
    nothing; the two calls together open at most the URL of the year, once;
    and what the first call returned, the second returns too, from the
    year left in [_dict]. *)
Theorem C5_second_call_from_memory dt s o1 s1 o2 s2 :
  date_info network dt s = (o1, s1) →
  date_info network dt s1 = (o2, s2) →
  s2 = s1 ∧
  (requests s2 = requests s ∨
   requests s2 = (requests s ++ [url_of (Date.year dt)])%list) ∧
  (∀ r, o1 = Returns r → o2 = Returns r ∧ is_Some (_dict s1 !! Date.year dt)).
Proof.
  rewrite (date_info_halves dt s).
  destruct (resolve network (Date.year dt) s) as [o s'] eqn:Hres.
  pose proof Hres as Hframe. apply resolve_frame in Hframe.
  destruct Hframe as [[Hy Hreq]|(-> & Hno & e & ->)].
  - intros H1 H2.
    assert (s1 = s') as -> by (destruct o; by injection H1).
    rewrite date_info_in_memory in H2 by done. injection H2 as <- <-.
    split; [done|]. split; [done|].
    intros r ->. destruct o as [[]|e]; [|done]. by injection H1 as ->.
  - intros [= <- <-]. rewrite date_info_halves, Hres. intros [= <- <-].
    split; [done|]. split; [auto|]. done.
Qed.



(** C9: in every result of [date_info] a holiday is also flagged as a
    weekend, and no day is both a holiday and a workday. *)
Theorem C9_holiday_implies_weekend dt s r s1 :
  date_info network dt s = (Returns r, s1) →
  (is_holiday r = true → is_weekend r = true) ∧
  ¬ (is_holiday r = true ∧ is_work r = true).
Proof.
  rewrite date_info_halves.
  destruct (resolve network (Date.year dt) s) as [[[]|e] s2]; [|done].
  unfold classification.
  destruct (_dict s2 !! Date.year dt) as [months|]; [|done].
  destruct (months !! Date.month dt) as [md|]; [|done].
  intros [= <- <-]. unfold flags.
  repeat case_bool_decide; simpl; split; try done; intros [? ?]; done.
Qed.

(** C10: a year stored as the empty object is reported as not cached; an
    instance that does not hold the year then requests its page, while an
    instance that holds the year without months answers from memory, with
    the [KeyError] of the month, and requests nothing.  The empty object is
    what a refused request leaves: in [_dict], and in the store once the
    write has gone through. *)
Theorem C10_empty_year_not_cached dt s doc :
  cache_file s = Some (Json doc) →
  doc !! Py.str (Date.year dt) = Some ∅ →
  __read_cache_json (Date.year dt) s = (Returns false, s) ∧
  (∀ o s1, date_info network dt (ProcessCalendar__init__ s) = (o, s1) →
     requests s1 = (requests s ++ [url_of (Date.year dt)])%list) ∧
  (_dict s !! Date.year dt = Some ∅ →
     date_info network dt s = (Raises (KeyError (Date.month dt)), s)) ∧
  (∀ s0 o s1 prior,
     _dict s0 !! Date.year dt = None →
     __read_cache_json (Date.year dt) s0 = (Returns false, s0) →
     (∃ reason, network (length (requests s0)) (url_of (Date.year dt)) = Refused reason) →
     persisted (cache_file s0) = Returns prior →
     date_info network dt s0 = (o, s1) →
     _dict s1 !! Date.year dt = Some ∅ ∧
     ∃ doc1, cache_file s1 = Some (Json doc1) ∧
             doc1 !! Py.str (Date.year dt) = Some ∅).
Proof.
  intros Hfile Hentry.
  assert (∀ s', cache_file s' = Some (Json doc) →
            __read_cache_json (Date.year dt) s' = (Returns false, s')) as Hread.
  { intros s' Hs'. by rewrite read_run, Hs'; simpl; rewrite Hentry. }
  split; [by apply Hread|]. split; [|split].
  - intros o s1. rewrite date_info_halves, resolve_run.
    rewrite bool_decide_eq_true_2 by done.
    rewrite (Hread (ProcessCalendar__init__ s)) by done.
    destruct (__get_year_data _ _ _) as [[[]|e] s2] eqn:Hget;
      apply get_year_data_frame in Hget as (_ & _ & Hreq & _);
      unfold ProcessCalendar__init__ in Hreq; simpl in Hreq.
    + destruct (__write_cache_json s2) as [[[]|e] s3] eqn:Hw;
        apply write_frame in Hw as (_ & Hreq3 & _); intros [= _ <-]; congruence.
    + by intros [= _ <-].
  - intros Hmem. rewrite date_info_in_memory by (rewrite Hmem; eauto).
    unfold classification. by rewrite Hmem, lookup_empty.
  - intros s0 o s1 prior Hno Hread0 Hnet Hprior Hrun. split.
    + by apply (refused_leaves_empty_year dt s0 o s1).
    + by apply (refused_persists_empty_year dt s0 o s1 prior).
Qed.

End Facts.

(** ** The claims on the sample data *)

Import Sample.

(** C1 on the January of the scenario: day 1 is a holiday and a weekend
    day, day 8 a short workday, day 9 a weekend day only, day 10 a plain
    workday. *)
Lemma C1_january :
  (∃ r, date_info offline (on 2024 1 1) holding_2024 = (Returns r, holding_2024) ∧
        is_work r = false ∧ is_short r = false ∧
        is_holiday r = true ∧ is_weekend r = true) ∧
  (∃ r, date_info offline (on 2024 1 8) holding_2024 = (Returns r, holding_2024) ∧
        is_work r = true ∧ is_short r = true ∧
        is_holiday r = false ∧ is_weekend r = false) ∧
  (∃ r, date_info offline (on 2024 1 9) holding_2024 = (Returns r, holding_2024) ∧
        is_work r = false ∧ is_short r = false ∧
        is_holiday r = false ∧ is_weekend r = true) ∧
  (∃ r, date_info offline (on 2024 1 10) holding_2024 = (Returns r, holding_2024) ∧
        is_work r = true ∧ is_short r = false ∧
        is_holiday r = false ∧ is_weekend r = false).
Proof.
  repeat split.
  - destruct (C1_precedence offline (on 2024 1 1) holding_2024 holding_2024
                {[1 := january]} january)
      as (r & Hr & _ & _ & H & _); [vm_compute; reflexivity..|].
    exists r. split; [exact Hr|]. apply H; simpl; compute_done.
  - destruct (C1_precedence offline (on 2024 1 8) holding_2024 holding_2024
                {[1 := january]} january)
      as (r & Hr & _ & H & _); [vm_compute; reflexivity..|].
    exists r. split; [exact Hr|]. apply H; simpl; compute_done.
  - destruct (C1_precedence offline (on 2024 1 9) holding_2024 holding_2024
                {[1 := january]} january)
      as (r & Hr & _ & _ & _ & H & _); [vm_compute; reflexivity..|].
    exists r. split; [exact Hr|]. apply H; simpl; compute_done.
  - destruct (C1_precedence offline (on 2024 1 10) holding_2024 holding_2024
                {[1 := january]} january)
      as (r & Hr & _ & _ & _ & _ & H); [vm_compute; reflexivity..|].
    exists r. split; [exact Hr|]. apply H; simpl; compute_done.
Defined.

(** C2 with no network and no cache file: the query for 8 March 2025
    raises the [KeyError] of the month, and 2025 stays in [_dict] with no
    month. *)
Lemma C2_offline :
  ∃ s1, date_info offline (on 2025 3 8) start = (Raises (KeyError 3), s1) ∧
        _dict s1 !! 2025 = Some ∅.
Proof.
  pose (run := date_info offline (on 2025 3 8) start).
  assert (date_info offline (on 2025 3 8) start = (fst run, snd run)) as E
    by (unfold run; by destruct (date_info _ _ _)).
  destruct (C2_missing_month_raises offline _ _ _ _ E) as [HA HB].
  destruct HB as [Hempty _];
    [vm_compute; reflexivity | vm_compute; reflexivity | by eexists |].
  destruct HA as (e & He & Hkey).
  { intros months. rewrite Hempty. by intros [= <-]. }
  exists (snd run). split; [|exact Hempty].
  rewrite E, He. f_equal. f_equal. apply Hkey. vm_compute. reflexivity.
Defined.


(** C4 on the January of the scenario. *)
Lemma C4_january_read_back :
  ∃ s1,
    __write_cache_json holding_2024 = (Returns tt, s1) ∧
    __read_cache_json 2024 (ProcessCalendar__init__ s1) =
      (Returns true, set_dict {[2024 := {[1 := january]}]} s1).
Proof.
  exists (snd (__write_cache_json holding_2024)).
  assert (__write_cache_json holding_2024 =
          (Returns tt, snd (__write_cache_json holding_2024))) as Hw
    by (vm_compute; reflexivity).
  split; [exact Hw|].
  apply (C4_round_trip 2024 {[1 := january]} holding_2024); [|..|exact Hw].
  - vm_compute. reflexivity.
  - intros H. apply (f_equal (λ m : gmap Z MonthData, m !! 1)) in H.
    vm_compute in H. discriminate H.
Defined.

(** C5 on a page of two months: the first call fetches 2024, the second
    answers the same from memory. *)
Lemma C5_two_calls :
  let net := serves (list_byte_of_string two_months) in
  ∃ r s1,
    date_info net (on 2024 1 8) start = (Returns r, s1) ∧
    date_info net (on 2024 1 8) s1 = (Returns r, s1) ∧
    requests s1 = [url_of 2024] ∧ is_short r = true.
Proof.
  intros net.
  pose (run1 := date_info net (on 2024 1 8) start).
  pose (run2 := date_info net (on 2024 1 8) (snd run1)).
  assert (date_info net (on 2024 1 8) start = (fst run1, snd run1)) as E1
    by (unfold run1; by destruct (date_info _ _ _)).
  assert (date_info net (on 2024 1 8) (snd run1) = (fst run2, snd run2)) as E2
    by (unfold run2; by destruct (date_info _ _ _)).
  destruct (C5_second_call_from_memory net _ _ _ _ _ _ E1 E2) as (Hs & _ & Hr).
  assert (fst run1 =
          Returns {| datetime := on 2024 1 8; is_work := true; is_short := true;
                     is_holiday := false; is_weekend := false |}) as H1
    by (vm_compute; reflexivity).
  destruct (Hr _ H1) as [H2 _].
  eexists _, (snd run1). split; [by rewrite E1, H1|].
  split; [by rewrite E2, H2, Hs|]. split; [vm_compute; reflexivity|done].
Defined.

(** C6: the fetch lets two failures through to its caller: bytes that are
    not UTF-8, and a connection lost while the body is read.  Only what
    [urlopen] itself raises is caught, printed and turned into [None]. *)
Theorem C6_fetch_raises year s :
  fst (__get_html (serves [xff]) year s) = Raises UnicodeDecodeError ∧
  fst (__get_html hangs_up year s) = Raises (HTTPException "IncompleteRead(0 bytes read)") ∧
  fst (date_info (serves [xff]) (on 2024 1 8) start) = Raises UnicodeDecodeError ∧
  __get_html offline year s =
    (Returns None,
     set_stdout (stdout s ++ ["<urlopen error timed out>"])
       (set_requests (requests s ++ [url_of year]) s)).
Proof.
  split; [by rewrite get_html_run|].
  split; [by rewrite get_html_run|].
  split; [vm_compute; reflexivity|].
  by rewrite get_html_run.
Qed.





(** C9 on the first of January. *)
Lemma C9_first_of_january :
  ∃ r, date_info offline (on 2024 1 1) holding_2024 = (Returns r, holding_2024) ∧
       (is_holiday r = true → is_weekend r = true) ∧
       ¬ (is_holiday r = true ∧ is_work r = true).
Proof.
  eexists. split; [vm_compute; reflexivity|].
  eapply (C9_holiday_implies_weekend offline (on 2024 1 1) holding_2024).
  vm_compute. reflexivity.
Defined.

(** C10 on a store that holds 2025 as the empty object, and on the run
    that leaves such a store. *)
Lemma C10_empty_2025 :
  let s := set_cache_file (Some (Json {["2025" := ∅]})) start in
  __read_cache_json 2025 s = (Returns false, s) ∧
  requests (snd (date_info offline (on 2025 3 8) (ProcessCalendar__init__ s))) =
    [url_of 2025] ∧
  (let s' := set_dict {[2025 := ∅]} s in
   date_info offline (on 2025 3 8) s' = (Raises (KeyError 3), s')) ∧
  cache_file (snd (date_info offline (on 2025 3 8) start)) =
    Some (Json {["2025" := ∅]}).
Proof.
  intros s.
  destruct (C10_empty_year_not_cached offline (on 2025 3 8) s {["2025" := ∅]})
    as (Hread & Hfresh & _ & Hleft); [reflexivity | vm_compute; reflexivity |].
  split; [exact Hread|]. split; [|split].
  - apply (Hfresh (fst (date_info offline (on 2025 3 8) (ProcessCalendar__init__ s)))).
    by destruct (date_info _ _ _).
  - intros s'.
    destruct (C10_empty_year_not_cached offline (on 2025 3 8) s' {["2025" := ∅]})
      as (_ & _ & Hmem & _); [reflexivity | vm_compute; reflexivity |].
    apply Hmem. vm_compute. reflexivity.
  - destruct (Hleft start (fst (date_info offline (on 2025 3 8) start))
                (snd (date_info offline (on 2025 3 8) start)) ∅)
      as (_ & doc1 & Hfile & _);
      [vm_compute; reflexivity | vm_compute; reflexivity | by eexists
      | reflexivity | by destruct (date_info _ _ _) |].
    vm_compute. reflexivity.
Defined.

(** ** Further properties of the methods *)

Import Cases.

Section More.

Variable network : nat → string → reply.

(** What a cache read can do: nothing, or promote the stored year. *)
Lemma read_cases year s o s' :
  __read_cache_json year s = (o, s') →
  (s' = s ∧ o ≠ Returns true) ∨
  (∃ doc entry months,
     cache_file s = Some (Json doc) ∧ doc !! Py.str year = Some entry ∧
     entry ≠ ∅ ∧ Json.int_keys entry = Returns months ∧
     o = Returns true ∧ s' = set_dict (<[year := months]> (_dict s)) s).
Proof.
  rewrite read_run.
  destruct (cache_file s) as [c|] eqn:Hc; [|intros [= <- <-]; naive_solver].
  destruct c as [| |doc]; simpl; try (intros [= <- <-]; naive_solver).
  destruct (doc !! Py.str year) as [entry|] eqn:He; [|intros [= <- <-]; naive_solver].
  case_bool_decide; [intros [= <- <-]; naive_solver|].
  destruct (Json.int_keys entry) as [months|e] eqn:Hk; intros [= <- <-]; [|naive_solver].
  right. by exists doc, entry, months.
Qed.

(** The loop of [pre_cache_json]: one request per listed year, in order,
    up to the first year whose extraction raises. *)
Lemma years_loop_frame years : ∀ s o s',
  for_each years (__get_year_data network) s = (o, s') →
  cache_file s' = cache_file s ∧
  (∀ y, y ∉ years → _dict s' !! y = _dict s !! y) ∧
  ∃ k, (k ≤ length years)%nat ∧
       requests s' = (requests s ++ (url_of <$> take k years))%list ∧
       (o = Returns tt →
        k = length years ∧ ∀ y, y ∈ years → is_Some (_dict s' !! y)).
Proof.
  induction years as [|y ys IH]; intros s o s'; simpl.
  - intros [= <- <-]. split; [done|]. split; [done|].
    exists 0%nat. rewrite app_nil_r. repeat split; [done|].
    by intros y ?%elem_of_nil.
  - rewrite bind_run.
    destruct (__get_year_data network y s) as [[[]|e] s1] eqn:Hget;
      apply get_year_data_frame in Hget as (Hy & Hc & Hr & Hother).
    + intros H. apply IH in H as (Hc' & Hother' & k & Hk & Hr' & Hret).
      split; [congruence|]. split.
      { intros y0 [Hne Hnin]%not_elem_of_cons.
        rewrite Hother' by done. by apply Hother. }
      exists (S k). split; [simpl; lia|]. split.
      { rewrite Hr', Hr. simpl. by rewrite <- app_assoc. }
      intros ->. destruct Hret as [-> Hin]; [done|]. split; [done|].
      intros y0 Hy0. destruct (decide (y0 ∈ ys)) as [?|Hnin]; [by apply Hin|].
      apply elem_of_cons in Hy0 as [->|?]; [|done].
      by rewrite Hother'.
    + intros [= <- <-]. split; [done|]. split.
      { intros y0 [Hne _]%not_elem_of_cons. by apply Hother. }
      exists 1%nat. split; [simpl; lia|]. split; [by rewrite Hr; destruct ys|done].
Qed.

(** The loop of [pre_cache_json] either gets through all the years, or
    stops in the state in which the extraction of a year raised. *)
Lemma years_loop_cases years : ∀ s o s',
  for_each years (__get_year_data network) s = (o, s') →
  (o = Returns tt ∧
   requests s' = (requests s ++ (url_of <$> years))%list) ∨
  (∃ (k : nat) y sk e,
     years !! k = Some y ∧
     for_each (take k years) (__get_year_data network) s = (Returns tt, sk) ∧
     __get_year_data network y sk = (Raises e, s') ∧
     o = Raises e ∧
     requests s' = (requests s ++ (url_of <$> take (S k) years))%list).
Proof.
  induction years as [|y ys IH]; intros s o s'; simpl.
  - intros [= <- <-]. left. by rewrite app_nil_r.
  - rewrite bind_run.
    destruct (__get_year_data network y s) as [[[]|e] s1] eqn:Hget;
      pose proof Hget as (_ & _ & Hr & _)%get_year_data_frame.
    + intros H. apply IH in H as [[-> Hreq]|(k & y' & sk & e & Hk & Hloop & Hfail & -> & Hreq)].
      * left. split; [done|]. rewrite Hreq, Hr. by rewrite <- app_assoc.
      * right. exists (S k), y', sk, e. split; [done|]. split.
        { simpl. by rewrite bind_run, Hget. }
        split; [done|]. split; [done|].
        rewrite Hreq, Hr. simpl. by rewrite <- app_assoc.
    + intros [= <- <-]. right. exists 0%nat, y, s, e.
      split; [done|]. split; [done|]. split; [done|]. split; [done|].
      simpl. by rewrite Hr.
Qed.

(** X1: for years short enough to be written into a URL, [pre_cache_json]
    asks the network for every listed year, in the order given and however
    often a year is listed, whether or not the year is in memory, and then
    writes; the requests are all made even when that write raises.  If
    instead the fetch or extraction of a year raises, the requests made
    are those for the years up to and including that one, and the error
    leaves [pre_cache_json] from the state in which it was raised. *)
Theorem X1_pre_cache_requests years s o s' :
  Forall Exact.printable years →
  pre_cache_json network years s = (o, s') →
  (∃ s1,
     for_each years (__get_year_data network) s = (Returns tt, s1) ∧
     __write_cache_json s1 = (o, s') ∧
     requests s' = (requests s ++ (url_of <$> years))%list) ∨
  (∃ (k : nat) y sk e,
     years !! k = Some y ∧
     for_each (take k years) (__get_year_data network) s = (Returns tt, sk) ∧
     __get_year_data network y sk = (Raises e, s') ∧
     o = Raises e ∧
     requests s' = (requests s ++ (url_of <$> take (S k) years))%list).
Proof.
  intros _. unfold pre_cache_json. rewrite bind_run.
  destruct (for_each years (__get_year_data network) s) as [o1 s1] eqn:Hloop.
  pose proof Hloop as Hcases. apply years_loop_cases in Hcases
    as [[-> Hreq]|(k & y & sk & e & Hk & Hpre & Hfail & -> & Hreq)].
  - intros Hw. left. exists s1. split; [done|]. split; [done|].
    apply write_frame in Hw as (_ & -> & _). done.
  - intros [= <- <-]. right. by exists k, y, sk, e.
Qed.


(** X3: when [pre_cache_json] returns, every listed year is in memory, the
    years not listed are in memory as before, and the store holds every
    year of the memory, listed or not, with the data of the memory. *)
Theorem X3_pre_cache_persists_memory years s s' :
  pre_cache_json network years s = (Returns tt, s') →
  (∀ y, y ∈ years → is_Some (_dict s' !! y)) ∧
  (∀ y, y ∉ years → _dict s' !! y = _dict s !! y) ∧
  ∃ doc, cache_file s' = Some (Json doc) ∧
         ∀ y months, _dict s' !! y = Some months →
                     doc !! Py.str y = Some (Json.text_keys months).
Proof.
  unfold pre_cache_json. rewrite bind_run.
  destruct (for_each years (__get_year_data network) s) as [[[]|e1] s1] eqn:Hloop;
    [|done].
  apply years_loop_frame in Hloop as (_ & Hother & k & _ & _ & Hret).
  destruct Hret as [_ Hin]; [done|].
  rewrite write_run. destruct (persisted (cache_file s1)) as [prior|]; [|done].
  intros [= <-]. simpl. split; [done|]. split; [done|].
  eexists. split; [done|]. intros y months Hy.
  rewrite lookup_text_keys, lookup_union, lookup_fmap, Hy. simpl.
  by rewrite union_Some_l.
Qed.

(** With a network that refuses every request, the loop leaves each listed
    year without months. *)
Lemma refused_loop years :
  (∀ n url, ∃ reason, network n url = Refused reason) →
  ∀ s, ∃ s',
    for_each years (__get_year_data network) s = (Returns tt, s') ∧
    cache_file s' = cache_file s ∧
    (∀ y, y ∈ years → _dict s' !! y = Some ∅) ∧
    (∀ y, y ∉ years → _dict s' !! y = _dict s !! y).
Proof.
  intros Hnet. induction years as [|y ys IH]; intros s; simpl.
  - exists s. split; [done|]. split; [done|]. split; [|done].
    by intros y ?%elem_of_nil.
  - destruct (Hnet (length (requests s)) (url_of y)) as [reason Hr].
    rewrite bind_run, (get_year_data_refused network _ _ _ Hr).
    destruct (IH (set_stdout (stdout s ++ [reason])
                    (set_requests (requests s ++ [url_of y])
                       (set_dict (<[y := ∅]> (_dict s)) s))))
      as (s' & -> & Hc & Hin & Hout).
    exists s'. split; [done|]. split; [done|]. split.
    + intros y0 Hy0. destruct (decide (y0 ∈ ys)) as [?|Hnin]; [by apply Hin|].
      apply elem_of_cons in Hy0 as [->|?]; [|done].
      rewrite Hout by done. simpl. apply lookup_insert_eq.
    + intros y0 [Hne Hnin]%not_elem_of_cons.
      rewrite Hout by done. simpl. by rewrite lookup_insert_ne.
Qed.

(** X4: refreshing years while the network refuses every request wipes
    them, provided the integers involved are short enough to be printed:
    each listed year ends with no month in memory, whatever it held before
    and whatever becomes of the write.  Over a store that can be read the
    call returns and the file is rewritten with the empty object for each
    listed year; over one that cannot, the call raises the error of the
    read and the file stays as it was. *)
Theorem X4_pre_cache_refused_wipes years s :
  (∀ n url, ∃ reason, network n url = Refused reason) →
  Forall Exact.printable years →
  Exact.printable_memory (_dict s) →
  (∀ y, y ∈ years →
        _dict (snd (pre_cache_json network years s)) !! y = Some ∅) ∧
  match persisted (cache_file s) with
  | Returns _ =>
      fst (pre_cache_json network years s) = Returns tt ∧
      ∃ doc, cache_file (snd (pre_cache_json network years s)) = Some (Json doc) ∧
             ∀ y, y ∈ years → doc !! Py.str y = Some ∅
  | Raises e =>
      fst (pre_cache_json network years s) = Raises e ∧
      cache_file (snd (pre_cache_json network years s)) = cache_file s
  end.
Proof.
  intros Hnet _ _.
  destruct (refused_loop years Hnet s) as (s1 & Hloop & Hc & Hin & _).
  unfold pre_cache_json. rewrite bind_run, Hloop, write_run, Hc.
  destruct (persisted (cache_file s)) as [prior|e]; simpl.
  - split; [done|]. split; [done|]. eexists. split; [done|].
    intros y Hy.
    rewrite lookup_text_keys, lookup_union, lookup_fmap, (Hin y Hy). simpl.
    rewrite union_Some_l. unfold Json.text_keys. by rewrite kmap_empty.
  - done.
Qed.

(** X5: after [pre_cache_json] has returned, a query for a date in one of
    the listed years is answered from memory: no request, no file access,
    the state stays as it is. *)
Theorem X5_pre_cache_then_query years dt s s' :
  pre_cache_json network years s = (Returns tt, s') →
  Date.year dt ∈ years →
  date_info network dt s' = (classification (_dict s') dt, s').
Proof.
  unfold pre_cache_json. rewrite bind_run.
  destruct (for_each years (__get_year_data network) s) as [[[]|e1] s1] eqn:Hloop;
    [|done].
  apply years_loop_frame in Hloop as (_ & _ & k & _ & _ & Hret).
  destruct Hret as [_ Hin]; [done|].
  intros Hw Hy. apply write_frame in Hw as (Hd & _).
  apply date_info_in_memory. rewrite Hd. by apply Hin.
Qed.


(** X6: a year that is not in memory but stored with at least one month is
    served from the store: its month keys become integers, it is put into
    [_dict], the answer is read from it, and neither a request nor a write
    takes place. *)
Theorem X6_query_from_store dt s doc entry months :
  _dict s !! Date.year dt = None →
  cache_file s = Some (Json doc) →
  doc !! Py.str (Date.year dt) = Some entry →
  entry ≠ ∅ →
  Json.int_keys entry = Returns months →
  date_info network dt s =
    (classification (<[Date.year dt := months]> (_dict s)) dt,
     set_dict (<[Date.year dt := months]> (_dict s)) s).
Proof.
  intros Hmem Hfile Hentry Hne Hkeys.
  rewrite date_info_halves, resolve_run, bool_decide_eq_true_2 by done.
  rewrite read_run, Hfile. simpl. rewrite Hentry.
  rewrite bool_decide_eq_false_2 by done. by rewrite Hkeys.
Qed.

(** X7: when reading the store raises (text that is no JSON, a month key
    that is no number), [date_info] for a year that is not in memory raises
    the same error at once: no request is made and nothing changes. *)
Theorem X7_store_error_stops_query dt s e s' :
  _dict s !! Date.year dt = None →
  __read_cache_json (Date.year dt) s = (Raises e, s') →
  date_info network dt s = (Raises e, s).
Proof.
  intros Hmem Hread.
  rewrite date_info_halves, resolve_run, bool_decide_eq_true_2 by done.
  pose proof Hread as Hcases. apply read_cases in Hcases as [[-> _]|H].
  - by rewrite Hread.
  - by destruct H as (? & ? & ? & _ & _ & _ & _ & ? & _).
Qed.

(** X8: [date_info] rewrites the cache file only after a request: when the
    list of requests is as before, so is the file. *)
Theorem X8_store_written_only_after_fetch dt s o s1 :
  date_info network dt s = (o, s1) →
  requests s1 = requests s →
  cache_file s1 = cache_file s.
Proof.
  rewrite date_info_halves, resolve_run. case_bool_decide as Hmem.
  - destruct (__read_cache_json (Date.year dt) s) as [[[]|e] s2] eqn:Hread;
      pose proof Hread as (Hc & _)%read_frame.
    + by intros [= _ <-].
    + apply read_cases in Hread as [[-> _]|H];
        [|by destruct H as (? & ? & ? & _ & _ & _ & _ & ? & _)].
      destruct (__get_year_data network (Date.year dt) s) as [[[]|e] s3] eqn:Hget;
        apply get_year_data_frame in Hget as (_ & _ & Hr & _).
      * destruct (__write_cache_json s3) as [[[]|e] s4] eqn:Hw;
          apply write_frame in Hw as (_ & Hr4 & _);
          intros [= _ <-] Heq; rewrite Hr4, Hr in Heq;
          apply (f_equal length) in Heq; rewrite length_app in Heq;
          simpl in Heq; lia.
      * intros [= _ <-] Heq. rewrite Hr in Heq.
        apply (f_equal length) in Heq. rewrite length_app in Heq.
        simpl in Heq. lia.
    + by intros [= _ <-].
  - by intros [= _ <-].
Qed.

(** X9: [date_info] leaves the other years of [_dict] alone, whatever it
    does to the year of its date. *)
Theorem X9_other_years_untouched dt s o s1 y :
  date_info network dt s = (o, s1) →
  y ≠ Date.year dt →
  _dict s1 !! y = _dict s !! y.
Proof.
  intros Hrun Hne. rewrite date_info_halves, resolve_run in Hrun.
  case_bool_decide as Hmem.
  - destruct (__read_cache_json (Date.year dt) s) as [[[]|e] s2] eqn:Hread;
      apply read_cases in Hread as [[-> _]|H].
    + by injection Hrun as _ <-.
    + destruct H as (? & ? & ? & _ & _ & _ & _ & _ & ->).
      injection Hrun as _ <-. simpl. by rewrite lookup_insert_ne.
    + destruct (__get_year_data network (Date.year dt) s) as [[[]|e] s3] eqn:Hget;
        apply get_year_data_frame in Hget as (_ & _ & _ & Hother).
      * destruct (__write_cache_json s3) as [[[]|e] s4] eqn:Hw;
          apply write_frame in Hw as (Hd & _);
          injection Hrun as _ <-; rewrite Hd; by apply Hother.
      * injection Hrun as _ <-. by apply Hother.
    + by destruct H as (? & ? & ? & _ & _ & _ & _ & ? & _).
    + by injection Hrun as _ <-.
    + by destruct H as (? & ? & ? & _ & _ & _ & _ & ? & _).
  - by injection Hrun as _ <-.
Qed.

(** X10: every result of [date_info] carries the date it was asked for, is
    a workday exactly when it is not a weekend day, and is short only if
    it is a workday. *)
Theorem X10_work_or_weekend dt s r s1 :
  date_info network dt s = (Returns r, s1) →
  datetime r = dt ∧
  is_work r = negb (is_weekend r) ∧
  (is_short r = true → is_work r = true).
Proof.
  rewrite date_info_halves.
  destruct (resolve network (Date.year dt) s) as [[[]|e] s2]; [|done].
  unfold classification.
  destruct (_dict s2 !! Date.year dt) as [months|]; [|done].
  destruct (months !! Date.month dt) as [md|]; [|done].
  intros [= <- <-]. unfold flags. by repeat case_bool_decide.
Qed.

(** X11: a write that went through can be repeated at once without
    effect: the second write leaves the file of the first. *)
Theorem X11_write_idempotent s s1 :
  __write_cache_json s = (Returns tt, s1) →
  __write_cache_json s1 = (Returns tt, s1).
Proof.
  rewrite write_run.
  destruct (persisted (cache_file s)) as [prior|]; [|done].
  intros [= <-]. rewrite write_run. simpl.
  rewrite int_keys_text_keys. simpl.
  by rewrite (assoc_L (∪)), (idemp_L (∪)).
Qed.

(** Resolving a year that was not in memory leaves it in memory and, when
    it has a month, in the store, from where a new instance reads it. *)
Lemma resolve_leaves_store year s s1 :
  _dict s !! year = None →
  resolve network year s = (Returns tt, s1) →
  ∃ months,
    _dict s1 !! year = Some months ∧
    (months ≠ ∅ →
     __read_cache_json year (ProcessCalendar__init__ s1) =
       (Returns true, set_dict {[year := months]} s1)).
Proof.
  intros Hmem. rewrite resolve_run, bool_decide_eq_true_2 by done.
  destruct (__read_cache_json year s) as [[[]|e] s2] eqn:Hread;
    apply read_cases in Hread as [[-> Hno]|H]; try done.
  - destruct H as (doc & entry & months & Hfile & Hentry & Hne & Hkeys & _ & ->).
    intros [= <-]. exists months. simpl. split; [apply lookup_insert_eq|].
    intros _. rewrite read_run. simpl. rewrite Hfile. simpl. rewrite Hentry.
    rewrite bool_decide_eq_false_2 by done. rewrite Hkeys.
    by rewrite insert_empty.
  - destruct (__get_year_data network year s) as [[[]|e] s3] eqn:Hget; [|done].
    apply get_year_data_frame in Hget as ([months Hy] & _).
    rewrite write_run.
    destruct (persisted (cache_file s3)) as [prior|]; [|done].
    intros [= <-]. exists months. simpl. split; [done|].
    intros Hne. rewrite read_run. simpl.
    rewrite lookup_text_keys, lookup_union, lookup_fmap, Hy. simpl.
    rewrite union_Some_l, bool_decide_eq_false_2
      by (by rewrite text_keys_empty_iff).
    rewrite int_keys_text_keys. by rewrite insert_empty.
  - by destruct H as (? & ? & ? & _ & _ & _ & _ & ? & _).
Qed.

(** X12: what [date_info] returned for a year it had to resolve, a new
    instance over the same file returns too, from the store alone: it
    makes no request and writes nothing. *)
Theorem X12_next_instance_from_store dt s r s1 :
  _dict s !! Date.year dt = None →
  date_info network dt s = (Returns r, s1) →
  ∃ months,
    _dict s1 !! Date.year dt = Some months ∧
    date_info network dt (ProcessCalendar__init__ s1) =
      (Returns r, set_dict {[Date.year dt := months]} s1).
Proof.
  intros Hmem. rewrite date_info_halves.
  destruct (resolve network (Date.year dt) s) as [[[]|e] s2] eqn:Hres; [|done].
  intros [= Hr <-].
  destruct (resolve_leaves_store _ _ _ Hmem Hres) as (months & Hy & Hread).
  exists months. split; [done|].
  assert (months ≠ ∅) as Hne.
  { intros ->. unfold classification in Hr. by rewrite Hy, lookup_empty in Hr. }
  rewrite date_info_halves, resolve_run, bool_decide_eq_true_2 by done.
  rewrite (Hread Hne). simpl. rewrite <- Hr. unfold classification.
  by rewrite Hy, lookup_singleton_eq.
Qed.

(** X13: a store with a year key that is no number does not get in the way
    of reading other years, but every write over it raises.  A query that
    has to fetch then raises that error after the page was taken into
    memory, the file stays as it was, and the same query asked again is
    answered from memory. *)
Theorem X13_unwritable_store dt s doc e s2 :
  cache_file s = Some (Json doc) →
  Json.int_keys doc = Raises e →
  _dict s !! Date.year dt = None →
  doc !! Py.str (Date.year dt) = None →
  __get_year_data network (Date.year dt) s = (Returns tt, s2) →
  date_info network dt s = (Raises e, s2) ∧
  cache_file s2 = cache_file s ∧
  date_info network dt s2 = (classification (_dict s2) dt, s2).
Proof.
  intros Hfile Hkeys Hmem Hentry Hget.
  pose proof Hget as (Hy & Hc & _)%get_year_data_frame.
  split; [|split; [done|by apply date_info_in_memory]].
  rewrite date_info_halves, resolve_run, bool_decide_eq_true_2 by done.
  rewrite read_run, Hfile. simpl. rewrite Hentry, Hget, write_run, Hc, Hfile.
  simpl. by rewrite Hkeys.
Qed.

(** X14: in a table whose pre-holiday cells hold ASCII digits, at most
    4300 to a cell, the days taken from those cells always convert: [int]
    raises on none of them, and each is a natural number. *)
Theorem X14_pre_holidays_convert table s :
  Exact.ascii_after_digits table = true →
  (∀ t, t ∈ Re.findall Re._pre_holiday_pattern table → Exact.within_limit t) →
  ∃ days,
    ints (Re.findall Re._pre_holiday_pattern table) s = (Returns days, s) ∧
    Forall (λ d : Z, (0 ≤ d)%Z) days.
Proof.
  intros _ _.
  destruct (pre_holiday_ints table) as [days Hdays].
  exists days. split; [by apply ints_mapM|].
  apply mapM_Some_1 in Hdays.
  assert (Forall (λ g, Py.all_digits g = true ∧ g ≠ EmptyString)
            (Re.findall Re._pre_holiday_pattern table)) as Hgroups.
  { apply Forall_forall. intros g (s' & k & H)%scan_groups.
    by apply pre_holiday_group in H. }
  induction Hdays as [|g d gs ds Hg _ IH]; [done|].
  apply Forall_cons in Hgroups as [[Hd Hne] Hrest].
  constructor; [|by apply IH].
  destruct (int_digits g Hd Hne) as [Hint _]. rewrite Hint in Hg.
  destruct (NilEmpty.uint_of_string g) as [u|]; simpl in Hg; [|done].
  injection Hg as <-. unfold Z.of_uint. lia.
Qed.

(** A lazy dot without [re.DOTALL] takes no newline. *)
Lemma lazy_until_no_newline stop s taken n :
  Re.lazy_until false stop s = Some (taken, n) →
  Re.newline ∉ list_ascii_of_string taken.
Proof.
  revert taken n. induction s as [|c r IH]; intros taken n; cbn -[String.prefix].
  - destruct (String.prefix stop EmptyString); [|done].
    intros [= <- _]. apply not_elem_of_nil.
  - destruct (String.prefix stop (String c r)).
    { intros [= <- _]. apply not_elem_of_nil. }
    destruct (Ascii.eqb c Re.newline) eqn:Hc; simpl; [done|].
    destruct (Re.lazy_until false stop r) as [[t k]|]; simpl; [|done].
    intros [= <- _]. simpl. apply not_elem_of_cons. split; [|by eapply IH].
    intros <-. by rewrite Ascii.eqb_refl in Hc.
Qed.

(** X15: no text taken from a weekend or a holiday cell contains a
    newline: a cell whose text runs over a line end is passed over. *)
Theorem X15_cells_on_one_line table t :
  t ∈ Re.findall Re._weekend_pattern table ∨
  t ∈ Re.findall Re._holiday_pattern table →
  Re.newline ∉ list_ascii_of_string t.
Proof.
  intros [H|H]; apply scan_groups in H as (s' & k & H).
  - unfold Re._weekend_pattern in H.
    destruct (Re.literal _ s') as [r|]; simpl in H; [|done].
    destruct (Re.lazy_until false "</td>" r) as [[g n]|] eqn:E; simpl in H; [|done].
    injection H as <- _. by eapply lazy_until_no_newline.
  - unfold Re._holiday_pattern in H.
    destruct (Re.literal _ s') as [r|]; simpl in H; [|done].
    destruct (Re.lazy_until false _ r) as [[g1 n1]|]; simpl in H; [|done].
    destruct (Re.lazy_until false "</td>" _) as [[g n]|] eqn:E; simpl in H; [|done].
    injection H as <- _. by eapply lazy_until_no_newline.
Qed.

(** X16: a fetch that brings no page (the request refused, the body lost on
    the way or not UTF-8, or an empty body) leaves the year in [_dict]
    without any month, whatever it held before. *)
Theorem X16_failed_fetch_empties_year year s :
  (∀ b, network (length (requests s)) (url_of year) = Answered (Body b) →
        Utf8.decode b = None ∨ Utf8.decode b = Some EmptyString) →
  _dict (snd (__get_year_data network year s)) !! year = Some ∅.
Proof.
  intros Hnet. unfold __get_year_data. rewrite bind_run.
  unfold setitem at 1. unfold modify at 1. cbv beta iota.
  rewrite bind_run, get_html_run. simpl.
  destruct (network _ _) as [reason|[b|reason]] eqn:E; simpl;
    try apply lookup_insert_eq.
  destruct (Hnet b eq_refl) as [-> | ->]; simpl; apply lookup_insert_eq.
Qed.


(** X17: for a year short enough to be written into the URL, each call
    of the fetch makes exactly one request, for the URL of the year, and
    never touches [_dict] or the cache file.  It returns [None] exactly
    when [urlopen] refused, and that is the only case in which it prints:
    the reason, on one line. *)
Theorem X17_fetch_once year s o s' :
  Exact.printable year →
  __get_html network year s = (o, s') →
  requests s' = (requests s ++ [url_of year])%list ∧
  _dict s' = _dict s ∧ cache_file s' = cache_file s ∧
  (o = Returns None ↔
   ∃ reason, network (length (requests s)) (url_of year) = Refused reason) ∧
  (∀ reason, network (length (requests s)) (url_of year) = Refused reason →
             stdout s' = (stdout s ++ [reason])%list) ∧
  (o ≠ Returns None → stdout s' = stdout s).
Proof.
  intros _. rewrite get_html_run. cbv zeta.
  destruct (network _ _) as [reason|[b|reason]] eqn:E.
  - intros [= <- <-]. simpl. repeat split; eauto; try done.
    by intros ? [= <-].
  - destruct (Utf8.decode b); intros [= <- <-]; simpl;
      repeat split; try done; by intros [? ?].
  - intros [= <- <-]. simpl. repeat split; try done. by intros [? ?].
Qed.

(** *** Extraction that stops half way *)

Lemma ints_fail l s :
  mapM Py.int l = None → ∃ t, ints l s = (Raises (ValueError t), s).
Proof.
  induction l as [|t l IH]; simpl; [done|].
  destruct (Py.int t) as [z|]; simpl; [|by eauto].
  destruct (mapM Py.int l) as [zs|]; simpl; [done|].
  intros _. destruct IH as [t' Ht']; [done|].
  exists t'. by rewrite bind_run, Ht'.
Qed.

Lemma table_body_fail year month table s :
  month_of_table table = None →
  ∃ t,
    (ph ← ints (Re.findall Re._pre_holiday_pattern table);
     we ← ints (Re.findall Re._weekend_pattern table);
     ho ← ints (Re.findall Re._holiday_pattern table);
     setitem2 year (month + 1)
       {| pre_holidays := ph; weekends := we; holidays := ho |}) s =
    (Raises (ValueError t), s).
Proof.
  unfold month_of_table. intros Hnone.
  destruct (mapM Py.int (Re.findall Re._pre_holiday_pattern table)) as [ph|] eqn:E1.
  2:{ destruct (ints_fail _ s E1) as [t Ht]. exists t. by rewrite bind_run, Ht. }
  destruct (mapM Py.int (Re.findall Re._weekend_pattern table)) as [we|] eqn:E2.
  2:{ destruct (ints_fail _ s E2) as [t Ht]. exists t.
      by rewrite bind_run, (ints_mapM _ _ _ E1), bind_run, Ht. }
  destruct (mapM Py.int (Re.findall Re._holiday_pattern table)) as [ho|] eqn:E3;
    [done|].
  destruct (ints_fail _ s E3) as [t Ht]. exists t.
  by rewrite bind_run, (ints_mapM _ _ _ E1), bind_run, (ints_mapM _ _ _ E2),
       bind_run, Ht.
Qed.

(** The loop over the tables, whether or not it gets to the end: the
    tables before the first one that does not convert are stored. *)
Lemma tables_loop_prefix year (l : list string) :
  ∀ (n : nat) s months o s',
    _dict s !! year = Some months →
    for_each (imap (λ i x, (Z.of_nat (n + i), x)) l)
      (λ '(month, table),
         ph ← ints (Re.findall Re._pre_holiday_pattern table);
         we ← ints (Re.findall Re._weekend_pattern table);
         ho ← ints (Re.findall Re._holiday_pattern table);
         setitem2 year (month + 1)
           {| pre_holidays := ph; weekends := we; holidays := ho |}) s =
    (o, s') →
    ∃ (j : nat) mds final,
      (j ≤ length l)%nat ∧
      mapM month_of_table (take j l) = Some mds ∧
      s' = set_dict (<[year := final]> (_dict s)) s ∧
      (∀ N : Z, final !! N =
         if bool_decide (Z.of_nat n + 1 ≤ N ≤ Z.of_nat n + Z.of_nat j)%Z
         then mds !! Z.to_nat (N - Z.of_nat n - 1)
         else months !! N) ∧
      ((o = Returns tt ∧ j = length l) ∨
       (∃ t table, o = Raises (ValueError t) ∧ l !! j = Some table ∧
                   month_of_table table = None)).
Proof.
  induction l as [|table l IH]; intros n s months o s' Hy; simpl.
  - intros [= <- <-]. exists 0%nat, [], months. split; [done|]. split; [done|].
    split; [destruct s; unfold set_dict; simpl in *; f_equal; by rewrite insert_id|].
    split; [|by left]. intros N. rewrite bool_decide_eq_false_2; [done|lia].
  - rewrite bind_run. replace (n + 0)%nat with n by lia.
    destruct (month_of_table table) as [md|] eqn:Hmd.
    + rewrite (table_body _ _ _ _ _ _ Hmd Hy).
      rewrite (imap_ext _ (λ i x, (Z.of_nat (S n + i), x))).
      2:{ intros i x _. simpl. do 2 f_equal. lia. }
      intros Hloop. apply IH with (months := <[Z.of_nat n + 1 := md]> months) in Hloop
        as (j & mds & final & Hj & Hmds & -> & Hfinal & Hend).
      2:{ simpl. by rewrite lookup_insert_eq. }
      exists (S j), (md :: mds), final. split; [simpl; lia|].
      split; [simpl; by rewrite Hmd, Hmds|].
      split; [simpl; by rewrite insert_insert_eq|]. split.
      * intros N. rewrite Hfinal.
        destruct (decide (N = Z.of_nat n + 1)) as [->|Hne].
        -- rewrite bool_decide_eq_false_2 by lia.
           rewrite bool_decide_eq_true_2 by lia.
           rewrite lookup_insert_eq.
           by replace (Z.of_nat n + 1 - Z.of_nat n - 1) with 0 by lia.
        -- rewrite lookup_insert_ne by done.
           case_bool_decide as H1; case_bool_decide as H2; try lia; [|done].
           replace (Z.to_nat (N - Z.of_nat n - 1))
             with (S (Z.to_nat (N - Z.of_nat (S n) - 1))) by lia.
           done.
      * destruct Hend as [[-> ->]|(t & tb & -> & Hl & Hnone)]; [by left|].
        right. by exists t, tb.
    + destruct (table_body_fail year (Z.of_nat n) table s Hmd) as [t ->].
      intros [= <- <-]. exists 0%nat, [], months. split; [lia|]. split; [done|].
      split; [destruct s; unfold set_dict; simpl in *; f_equal; by rewrite insert_id|].
      split; [|right; by exists t, table].
      intros N. rewrite bool_decide_eq_false_2; [done|lia].
Qed.

(** X18: extraction stores the tables of a page one by one.  When the
    cells of a table do not convert, [ValueError] is raised and the year
    is left with exactly the months built from the tables before it;
    otherwise the year has exactly one month per table. *)
Theorem X18_partial_year year s b html :
  network (length (requests s)) (url_of year) = Answered (Body b) →
  Utf8.decode b = Some html →
  ∃ (j : nat) mds months,
    (j ≤ length (Re.findall Re._table_pattern html))%nat ∧
    mapM month_of_table (take j (Re.findall Re._table_pattern html)) = Some mds ∧
    _dict (snd (__get_year_data network year s)) !! year = Some months ∧
    (∀ N : Z, months !! N =
       if bool_decide (1 ≤ N ≤ Z.of_nat j)%Z then mds !! Z.to_nat (N - 1)
       else None) ∧
    ((fst (__get_year_data network year s) = Returns tt ∧
      j = length (Re.findall Re._table_pattern html)) ∨
     (∃ t table,
        fst (__get_year_data network year s) = Raises (ValueError t) ∧
        Re.findall Re._table_pattern html !! j = Some table ∧
        month_of_table table = None)).
Proof.
  intros Hnet Hdec.
  set (s1 := set_requests (requests s ++ [url_of year])
               (set_dict (<[year := ∅]> (_dict s)) s)).
  assert (_dict s1 !! year = Some ∅) as Hy by (simpl; apply lookup_insert_eq).
  destruct (for_each (enumerate (Re.findall Re._table_pattern html))
      (λ '(month, table),
         ph ← ints (Re.findall Re._pre_holiday_pattern table);
         we ← ints (Re.findall Re._weekend_pattern table);
         ho ← ints (Re.findall Re._holiday_pattern table);
         setitem2 year (month + 1)
           {| pre_holidays := ph; weekends := we; holidays := ho |}) s1)
    as [o s'] eqn:Hloop.
  pose proof Hloop as Hpre. unfold enumerate in Hpre.
  apply (tables_loop_prefix year _ 0 s1 ∅ o s' Hy) in Hpre
    as (j & mds & final & Hj & Hmds & Hs' & Hfinal & Hend).
  assert (__get_year_data network year s = (o, s')) as Hrun.
  { unfold __get_year_data. rewrite bind_run.
    unfold setitem at 1. unfold modify at 1. cbv beta iota.
    rewrite bind_run, get_html_run. simpl. rewrite Hnet, Hdec.
    fold s1. destruct html as [|c html']; [|exact Hloop].
    simpl in Hloop. unfold mret, M_ret in *. done. }
  rewrite Hrun. simpl. exists j, mds, final.
  split; [done|]. split; [done|].
  split; [rewrite Hs'; simpl; apply lookup_insert_eq|].
  split; [|done]. intros N. rewrite Hfinal.
  replace (N - Z.of_nat 0 - 1) with (N - 1) by lia.
  case_bool_decide as H1; case_bool_decide as H2; try lia; [done|].
  apply lookup_empty.
Qed.



End More.

(** ** The further properties on the sample data *)

(** X1 on two years, one of them listed twice, and on a list whose first
    year has a page with an odd cell. *)
Lemma X1_three_requests :
  requests (snd (pre_cache_json offline [2024; 2025; 2024] holding_2024)) =
    [url_of 2024; url_of 2025; url_of 2024] ∧
  requests (snd (pre_cache_json odd_cell_net [2024; 2025] start)) = [url_of 2024].
Proof.
  split.
  - destruct (X1_pre_cache_requests offline [2024; 2025; 2024] holding_2024
                (fst (pre_cache_json offline [2024; 2025; 2024] holding_2024))
                (snd (pre_cache_json offline [2024; 2025; 2024] holding_2024)))
      as [(s1 & _ & _ & Hreq)|(k & y & sk & e & _ & _ & _ & Ho & _)].
    + repeat (apply Forall_cons_2; [four_digits|]). apply Forall_nil_2.
    + by destruct (pre_cache_json _ _ _).
    + exact Hreq.
    + vm_compute in Ho. discriminate Ho.
  - destruct (X1_pre_cache_requests odd_cell_net [2024; 2025] start
                (fst (pre_cache_json odd_cell_net [2024; 2025] start))
                (snd (pre_cache_json odd_cell_net [2024; 2025] start)))
      as [(s1 & Hloop & _)|(k & y & sk & e & Hk & Hpre & _ & _ & Hreq)].
    + repeat (apply Forall_cons_2; [four_digits|]). apply Forall_nil_2.
    + by destruct (pre_cache_json _ _ _).
    + vm_compute in Hloop. discriminate Hloop.
    + destruct k as [|k]; [exact Hreq|].
      vm_compute in Hpre. discriminate Hpre.
Defined.


(** X3 on the page of two months, fetched for 2025 by an instance that
    holds 2024. *)
Lemma X3_both_years_stored :
  let s' := snd (pre_cache_json two_months_net [2025] holding_2024) in
  (∀ y, y ∈ [2025] → is_Some (_dict s' !! y)) ∧
  (∀ y, y ∉ [2025] → _dict s' !! y = _dict holding_2024 !! y) ∧
  ∃ doc, cache_file s' = Some (Json doc) ∧
         ∀ y months, _dict s' !! y = Some months →
                     doc !! Py.str y = Some (Json.text_keys months).
Proof.
  apply (X3_pre_cache_persists_memory two_months_net [2025] holding_2024).
  vm_compute. reflexivity.
Defined.

(** X4 on an instance that holds 2024, over a store that holds it too and
    over one that is no JSON. *)
Lemma X4_january_wiped :
  (_dict (snd (pre_cache_json offline [2024] stored_2024)) !! 2024 = Some ∅ ∧
   fst (pre_cache_json offline [2024] stored_2024) = Returns tt ∧
   ∃ doc, cache_file (snd (pre_cache_json offline [2024] stored_2024)) =
            Some (Json doc) ∧
          doc !! Py.str 2024 = Some ∅) ∧
  (let s := set_cache_file (Some Malformed) holding_2024 in
   _dict (snd (pre_cache_json offline [2024] s)) !! 2024 = Some ∅ ∧
   fst (pre_cache_json offline [2024] s) = Raises JSONDecodeError ∧
   cache_file (snd (pre_cache_json offline [2024] s)) = Some Malformed).
Proof.
  assert (Exact.printable_memory {[2024 := {[1 := january]}]}) as Hmem.
  { apply map_Forall_singleton. split; [four_digits|].
    apply map_Forall_singleton. split; [four_digits|].
    unfold Exact.printable_month. simpl.
    repeat (apply Forall_cons_2; [four_digits|]). apply Forall_nil_2. }
  split.
  - destruct (X4_pre_cache_refused_wipes offline [2024] stored_2024)
      as [Hwiped Hstore].
    + intros n url. by eexists.
    + repeat (apply Forall_cons_2; [four_digits|]). apply Forall_nil_2.
    + exact Hmem.
    + split; [apply Hwiped; constructor|].
      change (persisted (cache_file stored_2024))
        with (persisted (Some (Json (Json.text_keys
               (Json.text_keys <$> ({[2024 := {[1 := january]}]} : gmap Z YearData))))))
        in Hstore.
      rewrite persisted_text_keys in Hstore.
      destruct Hstore as (Ho & doc & Hfile & Hdoc).
      split; [exact Ho|]. exists doc. split; [exact Hfile|].
      apply (Hdoc 2024). constructor.
  - intros s.
    destruct (X4_pre_cache_refused_wipes offline [2024] s) as [Hwiped Hstore].
    + intros n url. by eexists.
    + repeat (apply Forall_cons_2; [four_digits|]). apply Forall_nil_2.
    + exact Hmem.
    + split; [apply Hwiped; constructor|]. exact Hstore.
Defined.

(** X5 on the page of two months. *)
Lemma X5_query_after_pre_cache :
  let s' := snd (pre_cache_json two_months_net [2024] start) in
  date_info two_months_net (on 2024 1 8) s' =
    (classification (_dict s') (on 2024 1 8), s').
Proof.
  apply (X5_pre_cache_then_query two_months_net [2024] (on 2024 1 8) start).
  - vm_compute. reflexivity.
  - compute_done.
Defined.

(** X6 on a store that holds the January of 2024. *)
Lemma X6_january_from_store :
  date_info offline (on 2024 1 8) cached_2024 =
    (classification {[2024 := {[1 := january]}]} (on 2024 1 8),
     set_dict {[2024 := {[1 := january]}]} cached_2024).
Proof.
  apply (X6_query_from_store offline (on 2024 1 8) cached_2024
           (Json.of_dict {[2024 := {[1 := january]}]})
           {["1" := january]} {[1 := january]}).
  - reflexivity.
  - reflexivity.
  - vm_compute. reflexivity.
  - intros H. apply (f_equal (λ m : gmap string MonthData, m !! "1")) in H.
    vm_compute in H. discriminate H.
  - vm_compute. reflexivity.
Defined.

(** X7 on a store that is no JSON. *)
Lemma X7_corrupt_store :
  date_info two_months_net (on 2024 1 8) corrupt = (Raises JSONDecodeError, corrupt).
Proof.
  apply (X7_store_error_stops_query two_months_net (on 2024 1 8) corrupt
           JSONDecodeError corrupt).
  - reflexivity.
  - vm_compute. reflexivity.
Defined.

(** X8 on a query served from the store. *)
Lemma X8_store_kept :
  cache_file (snd (date_info offline (on 2024 1 8) cached_2024)) =
  cache_file cached_2024.
Proof.
  apply (X8_store_written_only_after_fetch offline (on 2024 1 8) cached_2024
           (fst (date_info offline (on 2024 1 8) cached_2024))).
  - by destruct (date_info _ _ _).
  - vm_compute. reflexivity.
Defined.

(** X9 on a query for 2025 by an instance that holds 2024. *)
Lemma X9_2024_kept :
  _dict (snd (date_info offline (on 2025 3 8) holding_2024)) !! 2024 =
  _dict holding_2024 !! 2024.
Proof.
  apply (X9_other_years_untouched offline (on 2025 3 8) holding_2024
           (fst (date_info offline (on 2025 3 8) holding_2024))).
  - by destruct (date_info _ _ _).
  - vm_compute. discriminate.
Defined.

(** X10 on the eighth of January. *)
Lemma X10_eighth_of_january :
  ∃ r, date_info offline (on 2024 1 8) holding_2024 = (Returns r, holding_2024) ∧
       datetime r = on 2024 1 8 ∧ is_work r = negb (is_weekend r) ∧
       (is_short r = true → is_work r = true).
Proof.
  eexists. split; [vm_compute; reflexivity|].
  eapply (X10_work_or_weekend offline (on 2024 1 8) holding_2024).
  vm_compute. reflexivity.
Defined.

(** X11 on an instance that holds 2024. *)
Lemma X11_write_twice :
  let s1 := snd (__write_cache_json holding_2024) in
  __write_cache_json s1 = (Returns tt, s1).
Proof.
  apply (X11_write_idempotent holding_2024). vm_compute. reflexivity.
Defined.

(** X12 on the page of two months. *)
Lemma X12_second_instance :
  let s1 := snd (date_info two_months_net (on 2024 1 8) start) in
  ∃ r months,
    date_info two_months_net (on 2024 1 8) start = (Returns r, s1) ∧
    _dict s1 !! 2024 = Some months ∧
    date_info two_months_net (on 2024 1 8) (ProcessCalendar__init__ s1) =
      (Returns r, set_dict {[2024 := months]} s1).
Proof.
  intros s1.
  assert (date_info two_months_net (on 2024 1 8) start =
          (Returns (flags {| pre_holidays := [8]; weekends := [9]; holidays := [1] |}
                      (on 2024 1 8)), s1)) as Hrun by (vm_compute; reflexivity).
  destruct (X12_next_instance_from_store two_months_net (on 2024 1 8) start _ s1
              eq_refl Hrun) as (months & Hy & Hnext).
  eexists _, months. split; [exact Hrun|]. split; [exact Hy|exact Hnext].
Defined.

(** X13 on a store with the key "next year". *)
Lemma X13_odd_key :
  let s2 := snd (__get_year_data two_months_net 2024 odd_key) in
  date_info two_months_net (on 2024 1 8) odd_key =
    (Raises (ValueError "next year"), s2) ∧
  cache_file s2 = cache_file odd_key ∧
  date_info two_months_net (on 2024 1 8) s2 =
    (classification (_dict s2) (on 2024 1 8), s2).
Proof.
  apply (X13_unwritable_store two_months_net (on 2024 1 8) odd_key
           {["next year" := ∅]}).
  - reflexivity.
  - vm_compute. reflexivity.
  - reflexivity.
  - vm_compute. reflexivity.
  - vm_compute. reflexivity.
Defined.

(** X14 on a table with two pre-holiday cells. *)
Lemma X14_two_cells :
  ∃ days,
    ints (Re.findall Re._pre_holiday_pattern
            (td "preholiday" "8" ++ td "preholiday" "30")) start =
      (Returns days, start) ∧
    Forall (λ d : Z, (0 ≤ d)%Z) days.
Proof.
  apply (X14_pre_holidays_convert (td "preholiday" "8" ++ td "preholiday" "30") start).
  - vm_compute. reflexivity.
  - apply Forall_forall. unfold Exact.within_limit. compute_done.
Defined.

(** X15 on a table with one weekend cell. *)
Lemma X15_one_cell :
  Re.newline ∉ list_ascii_of_string "9".
Proof.
  apply (X15_cells_on_one_line (td "weekend" "9") "9").
  left. vm_compute. constructor.
Defined.

(** X16 on a connection that is lost while the body is read. *)
Lemma X16_january_lost :
  _dict (snd (__get_year_data hangs_up 2024 holding_2024)) !! 2024 = Some ∅.
Proof.
  apply (X16_failed_fetch_empties_year hangs_up 2024 holding_2024).
  intros b H. discriminate H.
Defined.

(** X17 on a refused request. *)
Lemma X17_refused_once :
  let s' := snd (__get_html offline 2024 start) in
  requests s' = [url_of 2024] ∧ _dict s' = ∅ ∧ cache_file s' = None ∧
  stdout s' = ["<urlopen error timed out>"].
Proof.
  intros s'.
  destruct (X17_fetch_once offline 2024 start
              (fst (__get_html offline 2024 start)) s')
    as (Hr & Hd & Hc & _ & Hout & _);
    [four_digits | by destruct (__get_html _ _ _) |].
  split; [exact Hr|]. split; [exact Hd|]. split; [exact Hc|].
  apply Hout. reflexivity.
Defined.

(** X18 on a page whose second table has the odd cell: [ValueError], and
    the year is left with its first month only. *)
Lemma X18_first_month_only :
  let net := serves (list_byte_of_string second_table_odd) in
  fst (__get_year_data net 2024 start) = Raises (ValueError "x") ∧
  ∃ months,
    _dict (snd (__get_year_data net 2024 start)) !! 2024 = Some months ∧
    months !! 1 = Some {| pre_holidays := []; weekends := [6]; holidays := [] |} ∧
    months !! 2 = None.
Proof.
  intros net.
  destruct (X18_partial_year net 2024 start
              (list_byte_of_string second_table_odd) second_table_odd)
    as (j & mds & months & Hj & Hmds & Hy & Hmonths & Hend);
    [reflexivity | vm_compute; reflexivity |].
  split; [vm_compute; reflexivity|].
  exists months. split; [exact Hy|].
  assert (j = 1%nat) as ->.
  { destruct Hend as [[Hret _]|(t & table & _ & Hl & Hnone)].
    - vm_compute in Hret. discriminate Hret.
    - destruct j as [|[|j]]; [|reflexivity|].
      + vm_compute in Hl. injection Hl as <-. vm_compute in Hnone. discriminate Hnone.
      + vm_compute in Hl. discriminate Hl. }
  vm_compute in Hmds. injection Hmds as <-.
  split; [exact (Hmonths 1)|exact (Hmonths 2)].
Defined.

